(** * clinicadl: generation of the trivial "contrast" dataset

    A shallow embedding of
    [src/clinicadl/generate/artefacts/generate_trivial_contrast_cli.py]:
    the function [generate_contrast_dataset], its nested per-row job
    [create_contrast_image], and the [click] command [cli] in front of it.

    Python values are modelled as the code uses them: [str] as [string],
    [pathlib.Path] as a root and a list of components with pathlib's joining
    rule, a [pandas.DataFrame] as its column labels and its rows, [float] as
    the kernel's binary64 floats, the CAPS dictionary as a finite map.
    Exceptions are the left summand of a sum, and the files written are
    recorded, in order, in a trace of events. The pool of workers of joblib
    is an order of execution of the jobs that the number of workers
    decides. *)

From Stdlib Require Import ZArith Ascii PrimFloat.
From stdpp Require Import base option list strings gmap.

Local Open Scope Z_scope.

Set Warnings "-inexact-float".

(** ** Python strings *)

Module Str.

(** [s.split(sep)] for a one-character separator: never empty, [k]
    separators give [k + 1] fields. *)
Fixpoint split (sep : ascii) (s : string) : list string :=
  match s with
  | EmptyString => [EmptyString]
  | String c s' =>
      if Ascii.eqb c sep then EmptyString :: split sep s'
      else match split sep s' with
           | [] => [String c EmptyString]
           | f :: fs => String c f :: fs
           end
  end.

(** [sep.join(fields)] *)
Fixpoint join (sep : string) (fields : list string) : string :=
  match fields with
  | [] => ""
  | [f] => f
  | f :: fs => f +:+ sep +:+ join sep fs
  end.

(** [s.startswith(c)] for a single character *)
Definition startswith (c : ascii) (s : string) : bool :=
  match s with
  | String c' _ => Ascii.eqb c' c
  | EmptyString => false
  end.

(** Occurrences of a character, [s.count(c)]. *)
Fixpoint count (c : ascii) (s : string) : nat :=
  match s with
  | EmptyString => 0%nat
  | String c' s' => ((if Ascii.eqb c' c then 1 else 0) + count c s')%nat
  end.

End Str.

(** ** Exceptions *)

Inductive exn : Type :=
| NameError (name : string)
| IndexError
| KeyError (key : string)
| ValueError (msg : string)
| BadParameter (value : string)
| OSError (msg : string)
| LibraryError (origin msg : string).

Abbreviation Exc A := (sum exn A) (only parsing).

(** [xs[i]] for a non-negative literal index *)
Definition index {A} (xs : list A) (i : nat) : Exc A :=
  match xs !! i with
  | Some x => inr x
  | None => inl IndexError
  end.

(** ** pathlib paths (the POSIX flavour) *)

Record Path : Type := mkPath { root : string; parts : list string }.

Module Pathlib.

Definition slash : ascii := "/"%char.

(** The root of a path string: one slash, except that exactly two leading
    slashes are kept as they are. *)
Definition root_of (s : string) : string :=
  match s with
  | String c0 (String c1 (String c2 _)) =>
      if Ascii.eqb c0 slash then
        if Ascii.eqb c1 slash then
          if Ascii.eqb c2 slash then "/" else "//"
        else "/"
      else ""
  | String c0 (String c1 EmptyString) =>
      if Ascii.eqb c0 slash then
        if Ascii.eqb c1 slash then "//" else "/"
      else ""
  | String c0 EmptyString => if Ascii.eqb c0 slash then "/" else ""
  | EmptyString => ""
  end.

Definition keep_component (c : string) : bool :=
  negb (String.eqb c "") && negb (String.eqb c ".").

(** Components of a path string: empty ones and ["."] are dropped,
    [".."] is kept. *)
Definition components (s : string) : list string :=
  List.filter keep_component (Str.split slash s).

(** [Path(s)] *)
Definition parse (s : string) : Path :=
  {| root := root_of s; parts := components s |}.

(** [p / q] on two paths: a rooted right operand replaces the left one. *)
Definition joinpath (p q : Path) : Path :=
  if String.eqb (root q) "" then {| root := root p; parts := parts p ++ parts q |}
  else q.

(** [p.name] *)
Definition name (p : Path) : string := default "" (last (parts p)).

(** [str(p)] *)
Definition to_string (p : Path) : string :=
  match root p, parts p with
  | EmptyString, [] => "."
  | r, ps => r +:+ Str.join "/" ps
  end.

(** [p.is_relative_to(base)]: purely lexical. *)
Definition is_relative_to (p base : Path) : Prop :=
  root p = root base ∧ parts base `prefix_of` parts p.

End Pathlib.

(** [p / s] with a string on the right, as the source writes it. *)
Notation "p </> s" := (Pathlib.joinpath p (Pathlib.parse s))
  (at level 40, left associativity).

(** Where a path points when none of its components is a symbolic link:
    a [..] steps back over the component before it, as the file system
    and [os.path.normpath] have it. The components are kept on a stack,
    the last one on top. *)
Definition step_back (rooted : bool) (stack : list string) (c : string) : list string :=
  if String.eqb c ".." then
    match stack with
    | [] => if rooted then [] else [c]
    | top :: below => if String.eqb top ".." then c :: stack else below
    end
  else c :: stack.

Definition normpath (p : Path) : Path :=
  {| root := root p;
     parts := rev (fold_left (step_back (negb (String.eqb (root p) ""))) (parts p) []) |}.

(** [p] is [base] or a place beneath it, once the [..] of both are
    followed. *)
Definition lies_under (p base : Path) : Prop :=
  Pathlib.is_relative_to (normpath p) (normpath base).

(** The string has [..] among the fields between its slashes. *)
Definition climbs (s : string) : bool :=
  existsb (String.eqb "..") (Str.split Pathlib.slash s).

(** ** pandas data frames *)

(** A cell is a string or missing ([NaN]). *)
Definition cell : Type := option string.

Record DataFrame : Type := mkDataFrame {
  df_columns : list string;
  df_rows : list (list cell)
}.

Module Pandas.

(** [pd.DataFrame()] *)
Definition empty : DataFrame := {| df_columns := []; df_rows := [] |}.

(** [pd.DataFrame(columns=cols)] *)
Definition of_columns (cols : list string) : DataFrame :=
  {| df_columns := cols; df_rows := [] |}.

(** [pd.DataFrame(rows, columns=cols)] *)
Definition of_rows (rows : list (list cell)) (cols : list string) : DataFrame :=
  {| df_columns := cols; df_rows := rows |}.

(** The value of column [k] in a row laid out along [cols]. *)
Fixpoint at_column (cols : list string) (r : list cell) (k : string) : cell :=
  match cols, r with
  | c :: cols', v :: r' => if String.eqb c k then v else at_column cols' r' k
  | _, _ => None
  end.

Definition reindex (new_cols old_cols : list string) (r : list cell) : list cell :=
  List.map (at_column old_cols r) new_cols.

Definition has_label (cols : list string) (k : string) : bool :=
  existsb (String.eqb k) cols.

(** Column labels in order of first appearance (outer join, no sorting). *)
Fixpoint union_columns (frames : list DataFrame) : list string :=
  match frames with
  | [] => []
  | f :: fs =>
      df_columns f ++
      List.filter (fun k => negb (has_label (df_columns f) k)) (union_columns fs)
  end.

(** [pd.concat(frames)]: rows stacked in the order of the frames, every
    row laid out along the union of the columns. *)
Definition concat (frames : list DataFrame) : DataFrame :=
  let cols := union_columns frames in
  {| df_columns := cols;
     df_rows :=
       List.concat
         (List.map (fun f => List.map (reindex cols (df_columns f)) (df_rows f))
            frames) |}.

(** [len(df)] *)
Definition len (df : DataFrame) : nat := length (df_rows df).

End Pandas.

(** ** Effects: the files written, and the collaborators *)

(** A value of the dictionary handed to [commandline_to_json]. *)
Inductive pyvalue : Type :=
| VPath (p : Path)
| VStr (s : string).

(** What a run writes, in the order it writes it. *)
Inductive Event (Image : Type) : Type :=
| EJson (record : list (string * pyvalue))
| EMkdir (dir : Path)
| ESave (file : Path) (img : Image)
| EToCsv (file : Path) (sep : string) (df : DataFrame)
| EMissingMods (dir : Path) (df : DataFrame).

Arguments EJson {Image} record.
Arguments EMkdir {Image} dir.
Arguments ESave {Image} file img.
Arguments EToCsv {Image} file sep df.
Arguments EMissingMods {Image} dir df.

(** A row of the subject/session manifest [data_df]. *)
Record InRow : Type := mkInRow {
  participant_id : string;
  session_id : string;
  cohort : string
}.

(** Everything the module imports and calls: the repository's own helpers
    that are not part of this file ([create_caps_dict], [load_and_check_tsv],
    [find_file_type]), clinica's file lookup, torchio's images and gamma
    transform, Python's [float], the answer of the file system to each
    write, and the order in which a pool of [n_jobs] workers gets through a
    number of tasks (see [Parallel]). [apply_transform] takes the index of
    the job as the random draw of that job. *)
Record World : Type := mkWorld {
  Image : Type;
  Transform : Type;
  FileType : Type;
  create_caps_dict : Path → bool → Exc (gmap string Path);
  load_and_check_tsv : option string → gmap string Path → Path → Exc (list InRow);
  find_file_type : string → bool → string → string → Exc FileType;
  clinica_file_reader :
    list string → list string → Path → FileType → Exc (list string * string);
  RandomGamma : float → float → Exc Transform;
  ScalarImage : Path → Image;
  apply_transform : nat → Transform → Image → Exc Image;
  python_float : string → option float;
  fs_ok : Event Image → Exc unit;
  schedule : Z → nat → list nat
}.

(** A computation: the events it performed and how it ended. *)
Definition M (W : World) (A : Type) : Type := list (Event (Image W)) * Exc A.

Definition raise {W A} (e : exn) : M W A := ([], inl e).

Definition lift {W A} (x : Exc A) : M W A := ([], x).

Definition bind {W A B} (k : A → M W B) (m : M W A) : M W B :=
  match m with
  | (t, inl e) => (t, inl e)
  | (t, inr a) => let '(t', r) := k a in (t ++ t', r)
  end.

#[global] Instance M_ret {W} : MRet (M W) := λ A a, ([], inr a).

#[global] Instance M_bind {W} : MBind (M W) := λ A B k m, bind k m.

Definition trace {W A} (m : M W A) : list (Event (Image W)) := fst m.

Definition outcome {W A} (m : M W A) : Exc A := snd m.

(** A property of every event of a computation. *)
Definition all_events {W A} (P : Event (Image W) → Prop) (m : M W A) : Prop :=
  Forall P (trace m).

(** One write: it is recorded when the file system accepts it. *)
Definition emit (W : World) (ev : Event (Image W)) : M W unit :=
  match fs_ok W ev with
  | inl e => ([], inl e)
  | inr _ => ([ev], inr tt)
  end.

(** [dir.mkdir(parents=True, exist_ok=True)] *)
Definition mkdir (W : World) (dir : Path) : M W unit := emit W (EMkdir dir).

(** [image.save(file)] *)
Definition save (W : World) (img : Image W) (file : Path) : M W unit :=
  emit W (ESave file img).

(** [df.to_csv(file, sep=sep, index=False)] *)
Definition to_csv (W : World) (df : DataFrame) (file : Path) (sep : string) : M W unit :=
  emit W (EToCsv file sep df).

(** Modelled from the spec: [commandline_to_json] of
    [clinicadl.utils.maps_manager.iotools] is not part of this file; it
    "writes a JSON record of invocation parameters for provenance". *)
Definition commandline_to_json (W : World) (record : list (string * pyvalue)) : M W unit :=
  emit W (EJson record).

(** Modelled from the spec: [write_missing_mods] of
    [clinicadl.generate.generate_utils] is not part of this file; it writes
    the "missing modalities" report for the manifest it is given, in the
    directory it is given. *)
Definition write_missing_mods (W : World) (dir : Path) (df : DataFrame) : M W unit :=
  emit W (EMissingMods dir df).

(** Tasks run one after the other. *)
Fixpoint run_all {W A} (tasks : list (M W A)) : M W (list A) :=
  match tasks with
  | [] => mret []
  | t :: ts => x ← t; xs ← run_all ts; mret (x :: xs)
  end.

(** An order of execution, from a list of choices: every element is put
    into the order of those after it, at the place chosen for it (at the end
    when the choice is beyond it). Every list of choices gives a
    rearrangement of [l], and the choices [0, 0, ...] leave [l] as it is. *)
Definition insert_at {A} (k : nat) (x : A) (l : list A) : list A :=
  take k l ++ x :: drop k l.

Fixpoint shuffle {A} (choices : list nat) (l : list A) : list A :=
  match l with
  | [] => []
  | x :: l' => insert_at (hd 0%nat choices) x (shuffle (tl choices) l')
  end.

(** A task that returns its index with its value. *)
Definition tag {W A} (i : nat) (task : M W A) : M W (nat * A) :=
  match task with
  | (t, inl e) => (t, inl e)
  | (t, inr x) => (t, inr (i, x))
  end.

(** The values of the finished tasks, in the order of the tasks. *)
Definition in_task_order {A} (n : nat) (finished : list (nat * A)) : list A :=
  omap (fun i => (list_to_map finished : gmap nat A) !! i) (seq 0 n).

(** [joblib.Parallel(n_jobs)(tasks)]: zero workers are refused; the tasks
    run in an order that depends on the workers, each task as one step; an
    exception of a task is raised in the caller and ends the batch; the
    results come back in the order of the tasks. *)
Definition Parallel {W A} (n_jobs : Z) (tasks : list (M W A)) : M W (list A) :=
  if n_jobs =? 0 then raise (ValueError "n_jobs == 0 in Parallel has no meaning")
  else
    finished ← run_all (shuffle (schedule W n_jobs (length tasks)) (imap tag tasks));
    mret (in_task_order (length tasks) finished).

(** ** The function [generate_contrast_dataset] *)

Record Args : Type := mkArgs {
  caps_directory : Path;
  output_dir : Path;
  n_proc : Z;
  tsv_path : option string;
  preprocessing : string;
  multi_cohort : bool;
  uncropped_image : bool;
  tracer : string;
  suvr_reference_region : string;
  gamma : list float
}.

Definition tab : string := String (ascii_of_nat 9) EmptyString.

Definition columns : list string := ["participant_id"; "session_id"; "diagnosis"].

(** [data_df.loc[data_idx]] on the default integer index. *)
Definition loc (data_df : list InRow) (data_idx : nat) : Exc InRow :=
  match data_df !! data_idx with
  | Some r => inr r
  | None => inl (KeyError "data_idx")
  end.

(** [caps_dict[cohort]] *)
Definition getitem (caps_dict : gmap string Path) (k : string) : Exc Path :=
  match caps_dict !! k with
  | Some p => inr p
  | None => inl (KeyError k)
  end.

(** The nested function [create_contrast_image] (lines 85-123), with the
    variables of the enclosing call it refers to as leading arguments. *)
Definition create_contrast_image (W : World) (a : Args)
    (data_df : list InRow) (caps_dict : gmap string Path) (file_type : FileType W)
    (data_idx : nat) (output_df : DataFrame) : M W DataFrame :=
  r ← lift (loc data_df data_idx);
  let participant_id := participant_id r in
  let session_id := session_id r in
  let cohort := cohort r in
  caps ← lift (getitem caps_dict cohort);
  found ← lift (clinica_file_reader W [participant_id] [session_id] caps file_type);
  first ← lift (index (fst found) 0);
  let image_path := Pathlib.parse first in
  let input_filename := Pathlib.name image_path in
  let filename_pattern := Str.join "_" (drop 2 (Str.split "_" input_filename)) in
  subject_id ← lift (index (Str.split "-" participant_id) 1);
  let contrast_image_nii_dir :=
    output_dir a </> "subjects" </> ("sub-CONT" +:+ subject_id)
      </> session_id </> preprocessing a in
  let contrast_image_nii_filename :=
    "sub-CONT" +:+ subject_id +:+ "_" +:+ session_id +:+ "_" +:+ filename_pattern in
  mkdir W contrast_image_nii_dir;;
  g0 ← lift (index (gamma a) 0);
  g1 ← lift (index (gamma a) 1);
  contrast ← lift (RandomGamma W g0 g1);
  contrast_image ← lift (apply_transform W data_idx contrast (ScalarImage W image_path));
  save W contrast_image (contrast_image_nii_dir </> contrast_image_nii_filename);;
  let row := [Some ("sub-CONT" +:+ subject_id); Some session_id; Some "contrast"] in
  let row_df := Pandas.of_rows [row] columns in
  let output_df := Pandas.concat [output_df; row_df] in
  mret output_df.

(** The final loop (lines 129-131): every result is put in front of what
    has been gathered so far. *)
Definition gather (results_df : list DataFrame) : DataFrame :=
  fold_left (fun output_df result => Pandas.concat [result; output_df])
    results_df Pandas.empty.

(** Lines 61-135: everything the function does before its closing log
    line; the value is the manifest [output_df]. *)
Definition generate_contrast_dataset_outputs (W : World) (a : Args) : M W DataFrame :=
  commandline_to_json W
         [("output_dir", VPath (output_dir a));
          ("caps_dir", VPath (caps_directory a));
          ("preprocessing", VStr (preprocessing a))];;
  caps_dict ← lift (create_caps_dict W (caps_directory a) (multi_cohort a));
  data_df ← lift (load_and_check_tsv W (tsv_path a) caps_dict (output_dir a));
  mkdir W (output_dir a </> "subjects");;
  let output_df := Pandas.of_columns columns in
  file_type ← lift (find_file_type W (preprocessing a) (uncropped_image a)
                       (tracer a) (suvr_reference_region a));
  results_df ← Parallel (n_proc a)
                  (List.map
                     (fun data_idx =>
                        create_contrast_image W a data_df caps_dict file_type
                          data_idx output_df)
                     (seq 0 (length data_df)));
  let output_df := gather results_df in
  to_csv W output_df (output_dir a </> "data.tsv") tab;;
  write_missing_mods W (output_dir a) output_df;;
  mret output_df.

(** Line 137, [logger.info(...)]: the module imports [getLogger] and never
    binds the name [logger], so evaluating it raises. *)
Definition logger_info {W : World} (msg : string) : M W unit :=
  raise (NameError "logger").

(** [generate_contrast_dataset] (lines 21-139). *)
Definition generate_contrast_dataset (W : World) (a : Args) : M W unit :=
  generate_contrast_dataset_outputs W a;;
  logger_info
    ("Images corrupted with contrast artefacts were generated at "
       +:+ Pathlib.to_string (output_dir a)).

(** ** The command [cli] *)

Local Open Scope float_scope.

Definition default_gamma : list float := [-0.2; -0.05].

(** [type=float] applied to every value given for the option. *)
Fixpoint convert_floats (W : World) (values : list string) : Exc (list float) :=
  match values with
  | [] => inr []
  | v :: vs =>
      match python_float W v with
      | None => inl (BadParameter v)
      | Some f =>
          match convert_floats W vs with
          | inl e => inl e
          | inr fs => inr (f :: fs)
          end
      end
  end.

(** The option [--gamma] (lines 153-159): [multiple=2] is a true value for
    click's [multiple] flag, so the option may be repeated and its value is
    the tuple of all occurrences, or the default when there is none. *)
Definition gamma_option (W : World) (occurrences : list string) : Exc (list float) :=
  match occurrences with
  | [] => inr default_gamma
  | _ => convert_floats W occurrences
  end.

(** "Range between -1 and 1", the help text of the option. *)
Definition gamma_in_range (g : float) : bool := (-1 <=? g) && (g <=? 1).

Local Close Scope float_scope.

(** What [click] hands to [cli]: the other parameters are declared in
    [clinicadl.utils.cli_param] and arrive converted; for [--gamma] the raw
    occurrences are kept. *)
Record CliArgs : Type := mkCliArgs {
  cli_caps_directory : Path;
  cli_generated_caps_directory : Path;
  cli_preprocessing : string;
  cli_participants_tsv : option string;
  cli_use_uncropped_image : bool;
  cli_tracer : string;
  cli_suvr_reference_region : string;
  cli_gamma : list string;
  cli_n_proc : Z
}.

(** [cli] (lines 160-187): the keyword arguments of the call, [multi_cohort]
    left to its default. The function called is imported from the sibling
    module [.generate] under the name of the function of this file; it is
    taken to be that function. *)
Definition cli_call (c : CliArgs) (gamma : list float) : Args :=
  {| caps_directory := cli_caps_directory c;
     output_dir := cli_generated_caps_directory c;
     n_proc := cli_n_proc c;
     tsv_path := cli_participants_tsv c;
     preprocessing := cli_preprocessing c;
     multi_cohort := false;
     uncropped_image := cli_use_uncropped_image c;
     tracer := cli_tracer c;
     suvr_reference_region := cli_suvr_reference_region c;
     gamma := gamma |}.

Definition cli (W : World) (c : CliArgs) : M W unit :=
  gamma ← lift (gamma_option W (cli_gamma c));
  generate_contrast_dataset W (cli_call c gamma).

(** ** The names a row is given

    The expressions of [create_contrast_image] for one row, as functions
    of the row, to state what a run writes. *)

(** [s.split(sep)[i]], the empty string when there is no such field. *)
Definition field (sep : ascii) (s : string) (i : nat) : string :=
  default "" (Str.split sep s !! i).

(** [subject_id] (line 98) *)
Definition subject_id_of (r : InRow) : string := field "-" (participant_id r) 1.

(** [filename_pattern] (line 96) *)
Definition drop_two_fields (input_filename : string) : string :=
  Str.join "_" (drop 2 (Str.split "_" input_filename)).

(** [contrast_image_nii_dir] (lines 100-106) *)
Definition image_dir (a : Args) (r : InRow) : Path :=
  output_dir a </> "subjects" </> ("sub-CONT" +:+ subject_id_of r)
    </> session_id r </> preprocessing a.

(** [contrast_image_nii_filename] (lines 107-109) *)
Definition image_filename (r : InRow) (input_filename : string) : string :=
  "sub-CONT" +:+ subject_id_of r +:+ "_" +:+ session_id r +:+ "_"
    +:+ drop_two_fields input_filename.

(** [row] (line 119) *)
Definition manifest_row (r : InRow) : list cell :=
  [Some ("sub-CONT" +:+ subject_id_of r); Some (session_id r); Some "contrast"].

(** "The part of participant_id after the first hyphen", in the words of
    the specification: everything that follows it. *)
Fixpoint after_first_hyphen (s : string) : string :=
  match s with
  | EmptyString => ""
  | String c s' => if Ascii.eqb c "-" then s' else after_first_hyphen s'
  end.

(** The file name of the specification: ["sub-CONT<id>_<session>_<suffix>"]
    with [<id>] read as [after_first_hyphen]. *)
Definition spec_filename (r : InRow) (input_filename : string) : string :=
  "sub-CONT" +:+ after_first_hyphen (participant_id r) +:+ "_" +:+ session_id r
    +:+ "_" +:+ drop_two_fields input_filename.

(** Where an event writes. The specification does not say where the JSON
    record goes. *)
Definition written_path {Image} (ev : Event Image) : option Path :=
  match ev with
  | EJson _ => None
  | EMkdir dir => Some dir
  | ESave file _ => Some file
  | EToCsv file _ _ => Some file
  | EMissingMods dir _ => Some dir
  end.

(** The manifest or the report made from it. *)
Definition is_manifest_write {Image} (ev : Event Image) : bool :=
  match ev with
  | EToCsv _ _ _ | EMissingMods _ _ => true
  | _ => false
  end.

(** The job of row [data_idx] as [generate_contrast_dataset] starts it. *)
Definition job (W : World) (a : Args) (data_df : list InRow)
    (caps_dict : gmap string Path) (file_type : FileType W) (data_idx : nat)
    : M W DataFrame :=
  create_contrast_image W a data_df caps_dict file_type data_idx
    (Pandas.of_columns columns).

(** Row [r], at index [data_idx], went through [create_contrast_image]:
    the lookup found [first], the transform built from [gamma[0]] and
    [gamma[1]] gave [img]. *)
Definition processed (W : World) (a : Args) (caps_dict : gmap string Path)
    (file_type : FileType W) (data_idx : nat) (r : InRow) (first : string)
    (img : Image W) : Prop :=
  ∃ caps found g0 g1 contrast,
    caps_dict !! cohort r = Some caps ∧
    clinica_file_reader W [participant_id r] [session_id r] caps file_type = inr found ∧
    fst found !! 0%nat = Some first ∧
    is_Some (Str.split "-" (participant_id r) !! 1%nat) ∧
    gamma a !! 0%nat = Some g0 ∧
    gamma a !! 1%nat = Some g1 ∧
    RandomGamma W g0 g1 = inr contrast ∧
    apply_transform W data_idx contrast (ScalarImage W (Pathlib.parse first)) = inr img.

(** The file of the image written for row [r]. *)
Definition image_file (a : Args) (r : InRow) (first : string) : Path :=
  image_dir a r </> image_filename r (Pathlib.name (Pathlib.parse first)).

(** What the job of row [r] writes. *)
Definition job_trace {Image} (a : Args) (r : InRow) (first : string) (img : Image)
    : list (Event Image) :=
  [EMkdir (image_dir a r); ESave (image_file a r first) img].

(** The dictionary of line 62. *)
Definition invocation_record (a : Args) : list (string * pyvalue) :=
  [("output_dir", VPath (output_dir a));
   ("caps_dir", VPath (caps_directory a));
   ("preprocessing", VStr (preprocessing a))].

(** The manifest of a run over [data_df]. *)
Definition manifest_of (data_df : list InRow) : DataFrame :=
  if data_df is [] then Pandas.empty
  else Pandas.of_rows (rev (List.map manifest_row data_df)) columns.


(** A row laid out along the three columns of the manifest. *)
Definition three_cells (r : list cell) : Prop := length r = 3%nat.

(** The same call with another number of workers. *)
Definition with_n_proc (a : Args) (n : Z) : Args :=
  {| caps_directory := caps_directory a;
     output_dir := output_dir a;
     n_proc := n;
     tsv_path := tsv_path a;
     preprocessing := preprocessing a;
     multi_cohort := multi_cohort a;
     uncropped_image := uncropped_image a;
     tracer := tracer a;
     suvr_reference_region := suvr_reference_region a;
     gamma := gamma a |}.

(** The same world with another order of execution. *)
Definition with_schedule (W : World) (s : Z → nat → list nat) : World :=
  {| Image := Image W;
     Transform := Transform W;
     FileType := FileType W;
     create_caps_dict := create_caps_dict W;
     load_and_check_tsv := load_and_check_tsv W;
     find_file_type := find_file_type W;
     clinica_file_reader := clinica_file_reader W;
     RandomGamma := RandomGamma W;
     ScalarImage := ScalarImage W;
     apply_transform := apply_transform W;
     python_float := python_float W;
     fs_ok := fs_ok W;
     schedule := s |}.

(** The kinds of events: written by a job; the manifest itself. *)
Definition is_job_write {Image} (ev : Event Image) : bool :=
  match ev with
  | EMkdir _ | ESave _ _ => true
  | _ => false
  end.

Definition is_to_csv {Image} (ev : Event Image) : bool :=
  match ev with
  | EToCsv _ _ _ => true
  | _ => false
  end.




(** ** A small concrete world

    A CAPS directory [/data/caps] with one cohort, a lookup that finds one
    T1w image per subject and session, a gamma transform that accepts every
    non-decreasing range (torchio checks nothing else), and a file system
    that makes every directory it is asked for and takes an image only in
    a directory named after the preprocessing. A single worker takes the
    jobs in their order; with more workers the first job is overtaken by
    the second. Images are described by strings. *)

Module Demo.

Definition caps : Path := Pathlib.parse "/data/caps".

Definition out : Path := Pathlib.parse "/data/out".

Definition manifest (tsv : option string) : Exc (list InRow) :=
  match tsv with
  | Some "two.tsv" =>
      inr [mkInRow "sub-ADNI001" "ses-M00" "single";
           mkInRow "sub-OAS42" "ses-M06" "single"]
  | Some "three.tsv" =>
      inr [mkInRow "sub-A" "ses-M00" "single";
           mkInRow "sub-B" "ses-M00" "single";
           mkInRow "sub-C" "ses-M00" "single"]
  | Some "hyphens.tsv" => inr [mkInRow "sub-ADNI-001" "ses-M00" "single"]
  | Some "absolute.tsv" =>
      inr [mkInRow "sub-ADNI001" "/data/caps/subjects/sub-ADNI001/ses-M00" "single"]
  | Some "broken.tsv" =>
      inr [mkInRow "sub-ADNI001" "ses-M00" "single";
           mkInRow "ADNI002" "ses-M00" "single"]
  | Some "empty.tsv" => inr []
  | _ => inl (LibraryError "clinicadl" "ClinicaDLTSVError")
  end.

Definition lookup_image (subjects sessions : list string) (caps_dir : Path)
    (pattern : string) : Exc (list string * string) :=
  match subjects, sessions with
  | [p], [s] =>
      inr ([Pathlib.to_string
              (caps_dir </> "subjects" </> p </> s </> "t1_linear"
                 </> (p +:+ "_" +:+ Pathlib.name (Pathlib.parse s) +:+ "_" +:+ pattern))],
           "")
  | _, _ => inl (ValueError "subjects and sessions differ in length")
  end.

Definition float_of (s : string) : option float :=
  match s with
  | "-0.2" => Some (-0.2)%float
  | "-0.05" => Some (-0.05)%float
  | "0.5" => Some 0.5%float
  | "5" => Some 5%float
  | "7" => Some 7%float
  | "9" => Some 9%float
  | _ => None
  end.

Definition accepts (ev : Event string) : Exc unit :=
  match ev with
  | ESave file _ =>
      match reverse (parts file) with
      | _ :: "t1-linear" :: _ => inr tt
      | _ => inl (OSError "No such file or directory")
      end
  | _ => inr tt
  end.

Definition world : World :=
  {| Image := string;
     Transform := float * float;
     FileType := string;
     create_caps_dict := fun dir multi =>
       if multi then inl (LibraryError "clinicadl" "ClinicaDLArgumentError")
       else inr {[ "single" := dir ]};
     load_and_check_tsv := fun tsv _ _ => manifest tsv;
     find_file_type := fun preprocessing _ _ _ =>
       if String.eqb preprocessing "t1-linear" then inr "T1w.nii.gz"
       else inl (LibraryError "clinicadl" "NotImplementedError");
     clinica_file_reader := lookup_image;
     RandomGamma := fun g0 g1 =>
       if (g0 <=? g1)%float then inr (g0, g1)
       else inl (ValueError "the second value must be equal or greater than the first");
     ScalarImage := Pathlib.to_string;
     apply_transform := fun _ _ img => inr ("gamma(" +:+ img +:+ ")");
     python_float := float_of;
     fs_ok := accepts;
     schedule := fun n_jobs _ => if n_jobs =? 1 then [] else [1%nat] |}.

Definition args (tsv : string) (gamma : list float) (n_proc : Z) : Args :=
  {| caps_directory := caps;
     output_dir := out;
     n_proc := n_proc;
     tsv_path := Some tsv;
     preprocessing := "t1-linear";
     multi_cohort := false;
     uncropped_image := false;
     tracer := "fdg";
     suvr_reference_region := "pons";
     gamma := gamma |}.

Definition cli_args (tsv : string) (gamma : list string) : CliArgs :=
  {| cli_caps_directory := caps;
     cli_generated_caps_directory := out;
     cli_preprocessing := "t1-linear";
     cli_participants_tsv := Some tsv;
     cli_use_uncropped_image := false;
     cli_tracer := "fdg";
     cli_suvr_reference_region := "pons";
     cli_gamma := gamma;
     cli_n_proc := 2 |}.

End Demo.

(** The same world with a file system that takes every write, and with
    manifests whose rows lead out of [output_dir]: a session that is an
    absolute path, a session that climbs with [..], and a participant whose
    second field climbs. *)
Module Escape.

Definition manifest (tsv : option string) : Exc (list InRow) :=
  match tsv with
  | Some "session.tsv" =>
      inr [mkInRow "sub-A" "../../../caps/subjects/sub-A/ses-M00" "single"]
  | Some "participant.tsv" =>
      inr [mkInRow "sub-/../../../caps/derived" "ses-M00" "single"]
  | _ => Demo.manifest tsv
  end.

Definition world : World :=
  {| Image := string;
     Transform := float * float;
     FileType := string;
     create_caps_dict := create_caps_dict Demo.world;
     load_and_check_tsv := fun tsv _ _ => manifest tsv;
     find_file_type := find_file_type Demo.world;
     clinica_file_reader := Demo.lookup_image;
     RandomGamma := RandomGamma Demo.world;
     ScalarImage := Pathlib.to_string;
     apply_transform := apply_transform Demo.world;
     python_float := Demo.float_of;
     fs_ok := fun _ => inr tt;
     schedule := schedule Demo.world |}.

End Escape.


(** ** More of the same, for the edges of the code *)

(** An image is written. *)
Definition is_save {Image} (ev : Event Image) : bool :=
  match ev with
  | ESave _ _ => true
  | _ => false
  end.

(** A directory is made. *)
Definition is_mkdir {Image} (ev : Event Image) : bool :=
  match ev with
  | EMkdir _ => true
  | _ => false
  end.

(** The same call with another range. *)
Definition with_gamma (a : Args) (g : list float) : Args :=
  {| caps_directory := caps_directory a;
     output_dir := output_dir a;
     n_proc := n_proc a;
     tsv_path := tsv_path a;
     preprocessing := preprocessing a;
     multi_cohort := multi_cohort a;
     uncropped_image := uncropped_image a;
     tracer := tracer a;
     suvr_reference_region := suvr_reference_region a;
     gamma := g |}.

(** The same call with another preprocessing. *)
Definition with_preprocessing (a : Args) (name : string) : Args :=
  {| caps_directory := caps_directory a;
     output_dir := output_dir a;
     n_proc := n_proc a;
     tsv_path := tsv_path a;
     preprocessing := name;
     multi_cohort := multi_cohort a;
     uncropped_image := uncropped_image a;
     tracer := tracer a;
     suvr_reference_region := suvr_reference_region a;
     gamma := gamma a |}.

(** * Properties *)

(** ** Computations *)

Section Computations.

Context {W : World}.

Implicit Types ev : Event (Image W).

Lemma bind_inr {A B} (m : M W A) (k : A → M W B) t b :
  m ≫= k = (t, inr b) →
  ∃ t1 x t2, m = (t1, inr x) ∧ k x = (t2, inr b) ∧ t = t1 ++ t2.
Proof.
  unfold mbind, M_bind, bind. destruct m as [t1 [e|x]]; [discriminate|].
  destruct (k x) as [t2 r] eqn:Hk. intros [= <- ->]. by exists t1, x, t2.
Qed.

Lemma bind_ok {A B} (m : M W A) (k : A → M W B) t1 x t2 r :
  m = (t1, inr x) → k x = (t2, r) → m ≫= k = (t1 ++ t2, r).
Proof. intros -> Hk. unfold mbind, M_bind, bind. by rewrite Hk. Qed.

Lemma bind_fail {A B} (m : M W A) (k : A → M W B) t e :
  m = (t, inl e) → m ≫= k = (t, inl e).
Proof. by intros ->. Qed.

Lemma lift_inr {A} (x : Exc A) t v : lift (W:=W) x = (t, inr v) → x = inr v ∧ t = [].
Proof. by intros [= <- ->]. Qed.

Lemma emit_inr ev t u : emit W ev = (t, inr u) → fs_ok W ev = inr tt ∧ t = [ev].
Proof.
  unfold emit. destruct (fs_ok W ev) as [e|[]] eqn:H; [discriminate|].
  by intros [= <- _].
Qed.

Lemma all_events_bind {A B} P (m : M W A) (k : A → M W B) :
  all_events P m →
  (∀ x t, m = (t, inr x) → all_events P (k x)) →
  all_events P (m ≫= k).
Proof.
  unfold all_events, trace, mbind, M_bind, bind.
  destruct m as [t [e|x]]; simpl; [done|]. intros Ht Hk.
  specialize (Hk x t eq_refl). destruct (k x) as [t' r]; simpl in *.
  by apply Forall_app.
Qed.

Lemma all_events_lift {A} P (x : Exc A) : all_events P (lift (W:=W) x).
Proof. apply Forall_nil_2. Qed.

Lemma all_events_ret {A} P (x : A) : all_events P (mret (M:=M W) x).
Proof. apply Forall_nil_2. Qed.

Lemma all_events_raise {A} P e : all_events P (raise (W:=W) (A:=A) e).
Proof. apply Forall_nil_2. Qed.

Lemma all_events_emit P ev : P ev → all_events P (emit W ev).
Proof.
  unfold all_events, emit. intros HP.
  destruct (fs_ok W ev) as [e|u]; simpl; [apply Forall_nil_2|by apply Forall_singleton].
Qed.

Lemma all_events_run_all {A} P (tasks : list (M W A)) :
  Forall (all_events P) tasks → all_events P (run_all tasks).
Proof.
  induction 1 as [|task tasks Htask _ IH]; simpl.
  - apply all_events_ret.
  - apply all_events_bind; [done|]. intros x _ _.
    apply all_events_bind; [done|]. intros xs _ _. apply all_events_ret.
Qed.

(** When every task returns, [run_all] returns the values in the order of
    the tasks, and its trace is the traces one after the other. *)
Lemma run_all_inr {A} (tasks : list (M W A)) t xs :
  run_all tasks = (t, inr xs) →
  ∃ ts, Forall3 (fun task ti x => task = (ti, inr x)) tasks ts xs ∧ t = List.concat ts.
Proof.
  revert t xs. induction tasks as [|task tasks IH]; simpl; intros t xs H.
  - injection H as <- <-. exists []. split; [constructor|done].
  - apply bind_inr in H as (t1 & x & t2 & Htask & H & ->).
    apply bind_inr in H as (t3 & xs' & t4 & Hrest & H & ->).
    injection H as <- <-.
    destruct (IH _ _ Hrest) as (ts & Hall & ->).
    exists (t1 :: ts). split; [by constructor|].
    simpl. by rewrite app_nil_r.
Qed.

Lemma run_all_ok {A} (tasks : list (M W A)) ts xs :
  Forall3 (fun task ti x => task = (ti, inr x)) tasks ts xs →
  run_all tasks = (List.concat ts, inr xs).
Proof.
  induction 1 as [|task ti x tasks ts xs Htask _ IH]; simpl; [done|].
  erewrite bind_ok; [|exact Htask|].
  2:{ erewrite bind_ok; [|exact IH|reflexivity]. reflexivity. }
  by rewrite app_nil_r.
Qed.

(** The first task that raises ends [run_all] with its exception; the
    tasks before it have run, the tasks after it have not. *)
Lemma run_all_first_failure {A} (tasks : list (M W A)) j ts xs tj ej :
  Forall3 (fun task ti x => task = (ti, inr x)) (take j tasks) ts xs →
  tasks !! j = Some (tj, inl ej) →
  run_all tasks = (List.concat ts ++ tj, inl ej).
Proof.
  revert j ts xs. induction tasks as [|task tasks IH]; intros j ts xs Hbefore Hj.
  - by rewrite lookup_nil in Hj.
  - destruct j as [|j]; simpl in *.
    + injection Hj as ->. inversion Hbefore; subst. reflexivity.
    + inversion Hbefore as [|? ti x ? ts' xs' Htask Hrest]; subst.
      erewrite bind_ok; [|reflexivity|].
      2:{ erewrite bind_fail; [reflexivity|]. eapply IH; eauto. }
      simpl. by rewrite app_assoc.
Qed.


(** Before a task that raises there is a first one. *)
Lemma first_failure {A} (tasks : list (M W A)) i t e :
  tasks !! i = Some (t, inl e) →
  ∃ j ts xs tj ej,
    (j ≤ i)%nat ∧
    Forall3 (fun task ti x => task = (ti, inr x)) (take j tasks) ts xs ∧
    tasks !! j = Some (tj, inl ej).
Proof.
  revert i. induction tasks as [|[t0 [e0|x0]] tasks IH]; intros i Hi.
  - by rewrite lookup_nil in Hi.
  - exists 0%nat, [], [], t0, e0. split; [lia|]. split; [constructor|done].
  - destruct i as [|i]; [discriminate|]. simpl in Hi.
    destruct (IH i Hi) as (j & ts & xs & tj & ej & Hle & Hbefore & Hj).
    exists (S j), (t0 :: ts), (x0 :: xs), tj, ej.
    split; [lia|]. split; [by constructor|done].
Qed.

(** *** Orders of execution *)

Lemma insert_at_Permutation {B} k (x : B) l : insert_at k x l ≡ₚ x :: l.
Proof.
  unfold insert_at. rewrite <- Permutation_middle. by rewrite take_drop.
Qed.

Lemma shuffle_Permutation {B} choices (l : list B) : shuffle choices l ≡ₚ l.
Proof.
  revert choices. induction l as [|x l IH]; intros choices; simpl; [done|].
  by rewrite insert_at_Permutation, IH.
Qed.

Lemma fmap_shuffle {B C} (f : B → C) choices l :
  f <$> shuffle choices l = shuffle choices (f <$> l).
Proof.
  revert choices. induction l as [|x l IH]; intros choices; simpl; [done|].
  unfold insert_at. rewrite fmap_app, fmap_cons, fmap_take, fmap_drop.
  by rewrite IH.
Qed.

Lemma omap_ext_in {B C} (f g : B → option C) (l : list B) :
  (∀ x, x ∈ l → f x = g x) → omap f l = omap g l.
Proof.
  induction l as [|x l IH]; intros H; csimpl; [done|].
  rewrite (H x) by (apply elem_of_cons; by left).
  rewrite IH; [done|]. intros y Hy. apply H. apply elem_of_cons; by right.
Qed.

Lemma omap_lookup_seq {B} (xs : list B) :
  omap (fun i => xs !! i) (seq 0 (length xs)) = xs.
Proof.
  induction xs as [|x xs IH] using rev_ind; [done|].
  rewrite length_app, Nat.add_1_r, seq_S, omap_app. simpl.
  rewrite lookup_app_r, Nat.sub_diag by lia. simpl.
  f_equal. etrans; [|exact IH]. apply omap_ext_in.
  intros i [_ Hi]%elem_of_seq. apply lookup_app_l. simpl in Hi. lia.
Qed.

Lemma in_task_order_shuffle {B} choices (xs : list B) :
  in_task_order (length xs) (shuffle choices (imap pair xs)) = xs.
Proof.
  unfold in_task_order.
  assert (Hkeys : (imap pair xs).*1 = seq 0 (length xs)).
  { rewrite fmap_imap, (imap_ext _ (fun j _ => id j)) by done.
    by rewrite imap_seq_0, list_fmap_id. }
  assert (Hnodup : NoDup ((imap pair xs).*1)).
  { rewrite Hkeys. apply NoDup_seq. }
  rewrite <- (list_to_map_proper (imap pair xs)); [|done|by rewrite shuffle_Permutation].
  etrans; [|exact (omap_lookup_seq xs)]. apply omap_ext_in. intros i _.
  destruct (xs !! i) as [x|] eqn:Hx.
  - apply elem_of_list_to_map_1; [done|].
    by apply (elem_of_lookup_imap_2 pair xs x i).
  - apply not_elem_of_list_to_map_1. rewrite Hkeys, elem_of_seq.
    apply lookup_ge_None in Hx. lia.
Qed.


(** *** [Parallel] *)

Lemma trace_tag {A} i (task : M W A) : trace (tag i task) = trace task.
Proof. by destruct task as [t [e|x]]. Qed.

Lemma tag_inl {A} i (task : M W A) t e : tag i task = (t, inl e) → task = (t, inl e).
Proof. destruct task as [t' [e'|x]]; simpl; intros H; by simplify_eq. Qed.

Lemma tag_inr {A} i (task : M W A) t p :
  tag i task = (t, inr p) → ∃ x, task = (t, inr x) ∧ p = (i, x).
Proof. destruct task as [t' [e'|x]]; simpl; [done|]. intros [= -> <-]. by exists x. Qed.

Lemma elem_of_imap_tag {A} (tasks : list (M W A)) task' :
  task' ∈ imap tag tasks ↔ ∃ i task, tasks !! i = Some task ∧ task' = tag i task.
Proof.
  rewrite elem_of_lookup_imap. split.
  - intros (i & task & -> & Hi). by exists i, task.
  - intros (i & task & Hi & ->). by exists i, task.
Qed.

Lemma all_events_Parallel {A} P n (tasks : list (M W A)) :
  Forall (all_events P) tasks → all_events P (Parallel n tasks).
Proof.
  intros H. unfold Parallel. destruct (n =? 0); [apply all_events_raise|].
  apply all_events_bind; [|intros; apply all_events_ret].
  apply all_events_run_all. rewrite shuffle_Permutation.
  apply Forall_forall. intros task' (i & task & Hi & ->)%elem_of_imap_tag.
  unfold all_events. rewrite trace_tag.
  rewrite Forall_forall in H. apply H. by eapply list_elem_of_lookup_2.
Qed.

Lemma run_all_values {B} (l : list (list (Event (Image W)) * B)) :
  run_all ((fun tp => (tp.1, inr tp.2)) <$> l) = (List.concat (l.*1), inr (l.*2)).
Proof.
  apply run_all_ok. induction l as [|[t y] l IH]; csimpl; by constructor.
Qed.

Lemma imap_tag_values {A} (tasks : list (M W A)) ts xs :
  Forall3 (fun task ti x => task = (ti, inr x)) tasks ts xs →
  imap tag tasks = (fun tp => (tp.1, inr tp.2)) <$> zip ts (imap pair xs).
Proof.
  intros H.
  enough (Hgen : ∀ k,
    imap (fun i => tag (k + i)%nat) tasks
    = (fun tp => (tp.1, inr tp.2)) <$> zip ts (imap (fun i => pair (k + i)%nat) xs))
    by exact (Hgen 0%nat).
  induction H as [|task ti x tasks ts xs -> _ IH]; intros k; [done|].
  rewrite !imap_cons. simpl. rewrite Nat.add_0_r. f_equal.
  rewrite (imap_ext _ (fun i => tag (S k + i)%nat)) by (intros; simpl; f_equal; lia).
  rewrite (imap_ext (_ ∘ S) (fun i => pair (S k + i)%nat)) by (intros; simpl; f_equal; lia).
  apply IH.
Qed.

(** When every task returns, the batch returns the values in the order of
    the tasks, whatever the order of execution; the trace is the traces of
    the tasks in the order of execution. *)
Lemma Parallel_ok {A} n (tasks : list (M W A)) ts xs :
  n ≠ 0 →
  Forall3 (fun task ti x => task = (ti, inr x)) tasks ts xs →
  Parallel n tasks
  = (List.concat (shuffle (schedule W n (length tasks)) ts), inr xs).
Proof.
  intros Hn%Z.eqb_neq H. unfold Parallel. rewrite Hn.
  pose proof (Forall3_length_lm _ _ _ _ H) as Hts.
  pose proof (Forall3_length_lr _ _ _ _ H) as Hxs.
  rewrite (imap_tag_values _ _ _ H), <- fmap_shuffle.
  erewrite bind_ok; [|apply run_all_values|reflexivity].
  rewrite app_nil_r, !fmap_shuffle.
  rewrite fst_zip by (rewrite length_imap; lia).
  rewrite snd_zip by (rewrite length_imap; lia).
  unfold M in *. by rewrite Hxs, in_task_order_shuffle.
Qed.

Lemma all_return {A} (tasks : list (M W A)) :
  Forall (fun task => ∃ ti x, task = (ti, inr x)) tasks →
  ∃ ts xs, Forall3 (fun task ti x => task = (ti, inr x)) tasks ts xs.
Proof.
  induction 1 as [|task tasks (ti & x & ->) _ (ts & xs & IH)].
  - exists [], []. constructor.
  - exists (ti :: ts), (x :: xs). by constructor.
Qed.

Lemma Parallel_inr {A} n (tasks : list (M W A)) t xs :
  Parallel n tasks = (t, inr xs) →
  n ≠ 0 ∧
  ∃ ts,
    Forall3 (fun task ti x => task = (ti, inr x)) tasks ts xs ∧
    t = List.concat (shuffle (schedule W n (length tasks)) ts).
Proof.
  intros H. assert (Hn : n ≠ 0).
  { intros ->. by unfold Parallel in H. }
  split; [done|]. pose proof H as Hrun. unfold Parallel in Hrun.
  destruct (n =? 0) eqn:Hz; [by apply Z.eqb_eq in Hz|].
  apply bind_inr in Hrun as (t1 & finished & t2 & Hrun & _ & _).
  apply run_all_inr in Hrun as (ts' & Hall & _).
  assert (Hreturn : Forall (fun task => ∃ ti x, task = (ti, inr x)) tasks).
  { apply Forall_lookup. intros i task Hi.
    assert (Hin : tag i task ∈ shuffle (schedule W n (length tasks)) (imap tag tasks)).
    { rewrite shuffle_Permutation. apply elem_of_imap_tag. by exists i, task. }
    apply list_elem_of_lookup_1 in Hin as [k Hk].
    destruct (Forall3_lookup_l _ _ _ _ _ _ Hall Hk) as (ti & p & _ & _ & Htag).
    apply tag_inr in Htag as (x & -> & _). by exists ti, x. }
  destruct (all_return _ Hreturn) as (ts & xs0 & Hall0).
  rewrite (Parallel_ok _ _ _ _ Hn Hall0) in H. injection H as <- <-.
  by exists ts.
Qed.

(** When a task raises, the batch ends with the exception of a task. *)
Lemma Parallel_fail {A} n (tasks : list (M W A)) i t e :
  n ≠ 0 →
  tasks !! i = Some (t, inl e) →
  ∃ j tj ej tr, tasks !! j = Some (tj, inl ej) ∧ Parallel n tasks = (tr, inl ej).
Proof.
  intros Hn%Z.eqb_neq Hi. unfold Parallel. rewrite Hn.
  assert (Hin : (t, inl e) ∈ shuffle (schedule W n (length tasks)) (imap tag tasks)).
  { rewrite shuffle_Permutation. apply elem_of_imap_tag. by exists i, (t, inl e). }
  apply list_elem_of_lookup_1 in Hin as [k Hk].
  destruct (first_failure _ _ _ _ Hk) as (j' & ts & ps & tj & ej & _ & Hbefore & Hj').
  pose proof (run_all_first_failure _ _ _ _ _ _ Hbefore Hj') as Hrun.
  apply list_elem_of_lookup_2 in Hj' as Hin.
  rewrite shuffle_Permutation in Hin.
  apply elem_of_imap_tag in Hin as (j & task & Hj & Htag).
  symmetry in Htag. apply tag_inl in Htag as ->.
  exists j, tj, ej. eexists. split; [done|]. by erewrite bind_fail.
Qed.

End Computations.

(** ** Strings and paths *)

Lemma split_nonempty sep s : Str.split sep s ≠ [].
Proof. destruct s as [|c s]; simpl; [done|]. destruct (Ascii.eqb c sep); [done|]. by destruct (Str.split sep s). Qed.

(** A string that does not start with a slash is a relative path. *)
Lemma root_of_relative s : Str.startswith "/" s = false → Pathlib.root_of s = "".
Proof.
  unfold Str.startswith, Pathlib.root_of, Pathlib.slash.
  destruct s as [|c0 [|c1 [|c2 s]]]; intros H; try done; by rewrite H.
Qed.

Lemma join_relative p s :
  Str.startswith "/" s = false →
  p </> s = {| root := root p; parts := parts p ++ Pathlib.components s |}.
Proof. intros H. unfold Pathlib.joinpath, Pathlib.parse; simpl. by rewrite (root_of_relative _ H). Qed.

Lemma is_relative_to_refl p : Pathlib.is_relative_to p p.
Proof. by split. Qed.

(** With a single hyphen, the field the code takes is all that follows
    the hyphen. *)
Lemma split_no_separator sep s : Str.count sep s = 0%nat → Str.split sep s = [s].
Proof.
  induction s as [|c s IH]; simpl; [done|].
  destruct (Ascii.eqb c sep); [done|]. intros H. by rewrite (IH H).
Qed.

Lemma field_one_hyphen s :
  Str.count "-" s = 1%nat → field "-" s 1 = after_first_hyphen s.
Proof.
  unfold field. induction s as [|c s IH]; simpl; [done|].
  destruct (Ascii.eqb c "-") eqn:Hc; simpl.
  - intros [= H]. by rewrite (split_no_separator _ _ H).
  - intros H. specialize (IH H).
    pose proof (split_nonempty "-" s) as Hne.
    destruct (Str.split "-" s) as [|f fs]; [done|]. exact IH.
Qed.

(** *** Fields of a string *)

Lemma split_length sep s : length (Str.split sep s) = S (Str.count sep s).
Proof.
  induction s as [|c s IH]; simpl; [done|].
  destruct (Ascii.eqb c sep); simpl; [by rewrite IH|].
  destruct (Str.split sep s) as [|f fs]; simpl in *; [done|]. exact IH.
Qed.

Lemma join_cons sep f fields :
  fields ≠ [] → Str.join sep (f :: fields) = f +:+ sep +:+ Str.join sep fields.
Proof. by destruct fields. Qed.

(** [sep.join(s.split(sep)) == s] *)
Lemma join_split (sep : ascii) s :
  Str.join (String sep EmptyString) (Str.split sep s) = s.
Proof.
  induction s as [|c s IH]; [done|].
  pose proof (split_nonempty sep s) as Hne.
  cbn [Str.split]. destruct (Ascii.eqb c sep) eqn:Hc.
  - apply Ascii.eqb_eq in Hc as ->. rewrite join_cons, IH by done. done.
  - destruct (Str.split sep s) as [|f fs]; [done|].
    destruct fs as [|f' fs].
    + cbn [Str.join] in *. by rewrite IH.
    + rewrite join_cons in * by done. by rewrite <- IH.
Qed.

Lemma split_app sep p s :
  Str.count sep p = 0%nat →
  Str.split sep (p +:+ String sep s) = p :: Str.split sep s.
Proof.
  induction p as [|c p IH]; simpl.
  - intros _. by rewrite Ascii.eqb_refl.
  - destruct (Ascii.eqb c sep); [done|]. intros H. by rewrite (IH H).
Qed.

Lemma count_app c s1 s2 :
  Str.count c (s1 +:+ s2) = (Str.count c s1 + Str.count c s2)%nat.
Proof. induction s1 as [|c1 s1 IH]; simpl; [done|]. rewrite IH. lia. Qed.

(** No field holds the separator. *)
Lemma split_fields sep s : Forall (fun f => Str.count sep f = 0%nat) (Str.split sep s).
Proof.
  induction s as [|c s IH]; simpl; [by repeat constructor|].
  destruct (Ascii.eqb c sep) eqn:Hc; [by constructor|].
  destruct (Str.split sep s) as [|f fs]; [by repeat constructor; simpl; rewrite Hc|].
  inversion IH; subst. constructor; [|done]. simpl. by rewrite Hc.
Qed.

(** A character that is not in a string is in none of its fields. *)
Lemma split_fields_other c sep s :
  Str.count c s = 0%nat → Forall (fun f => Str.count c f = 0%nat) (Str.split sep s).
Proof.
  induction s as [|c' s IH]; simpl; [by repeat constructor|].
  destruct (Ascii.eqb c' c) eqn:Hc; [done|]. simpl. intros H. specialize (IH H).
  destruct (Ascii.eqb c' sep); [by constructor|].
  destruct (Str.split sep s) as [|f fs]; [by repeat constructor; simpl; rewrite Hc|].
  inversion IH; subst. constructor; [|done]. simpl. by rewrite Hc.
Qed.

Lemma count_join c sep fields :
  Str.count c sep = 0%nat →
  Forall (fun f => Str.count c f = 0%nat) fields →
  Str.count c (Str.join sep fields) = 0%nat.
Proof.
  intros Hsep. induction 1 as [|f fs Hf Hfs IH]; [done|].
  destruct fs as [|f' fs]; [done|].
  rewrite join_cons by done. rewrite !count_app, Hf, Hsep, IH. done.
Qed.

(** *** Names of files *)

Lemma startswith_plain s : Str.count "/" s = 0%nat → Str.startswith "/" s = false.
Proof. destruct s as [|c s]; simpl; [done|]. by destruct (Ascii.eqb c "/"). Qed.

Lemma components_plain s :
  Str.count "/" s = 0%nat → s ≠ "" → s ≠ "." → Pathlib.components s = [s].
Proof.
  intros Hs Hne Hdot. unfold Pathlib.components, Pathlib.slash.
  rewrite (split_no_separator _ _ Hs). simpl. unfold Pathlib.keep_component.
  apply String.eqb_neq in Hne, Hdot. by rewrite Hne, Hdot.
Qed.

(** [(p / s).name == s] for a plain name [s]. *)
Lemma name_join p s :
  Str.count "/" s = 0%nat → s ≠ "" → s ≠ "." → Pathlib.name (p </> s) = s.
Proof.
  intros Hs Hne Hdot. rewrite (join_relative _ _ (startswith_plain _ Hs)).
  unfold Pathlib.name. simpl. by rewrite (components_plain _ Hs Hne Hdot), last_snoc.
Qed.

Lemma last_Forall {B} (P : B → Prop) d (l : list B) :
  P d → Forall P l → P (default d (last l)).
Proof.
  intros Hd. induction 1 as [|x l Hx Hl IH]; [done|].
  destruct l as [|y l]; [done|]. exact IH.
Qed.

Lemma filter_Forall {B} (P : B → Prop) (f : B → bool) (l : list B) :
  Forall P l → Forall P (List.filter f l).
Proof.
  induction 1 as [|x l Hx Hl IH]; simpl; [done|]. destruct (f x); [by constructor|done].
Qed.

(** [Path(s).name] holds no slash. *)
Lemma name_no_slash s : Str.count "/" (Pathlib.name (Pathlib.parse s)) = 0%nat.
Proof.
  unfold Pathlib.name, Pathlib.parse, Pathlib.components. simpl.
  apply (last_Forall (fun f => Str.count "/" f = 0%nat)); [done|].
  apply filter_Forall, split_fields.
Qed.

(** *** Where a path points *)

Lemma fold_step_back rooted rest stack :
  Forall (fun c => c ≠ "..") rest →
  fold_left (step_back rooted) rest stack = rev rest ++ stack.
Proof.
  intros H. revert stack. induction H as [|c rest Hc _ IH]; intros stack; simpl; [done|].
  rewrite IH. unfold step_back. apply String.eqb_neq in Hc. rewrite Hc.
  by rewrite <- app_assoc.
Qed.

(** Components without [..] are kept as they are, whatever comes before
    them. *)
Lemma normpath_app p rest :
  Forall (fun c => c ≠ "..") rest →
  normpath {| root := root p; parts := parts p ++ rest |}
  = {| root := root p; parts := parts (normpath p) ++ rest |}.
Proof.
  intros H. unfold normpath. simpl. f_equal.
  by rewrite fold_left_app, (fold_step_back _ _ _ H), rev_app_distr, rev_involutive.
Qed.

Lemma lies_under_refl p : lies_under p p.
Proof. apply is_relative_to_refl. Qed.

Lemma lies_under_app p base rest :
  Forall (fun c => c ≠ "..") rest →
  lies_under p base →
  lies_under {| root := root p; parts := parts p ++ rest |} base.
Proof.
  intros H [Hroot Hparts]. unfold lies_under. rewrite (normpath_app _ _ H).
  split; [done|]. simpl. by apply prefix_app_r.
Qed.

Lemma climbs_false s :
  climbs s = false → Forall (fun c => c ≠ "..") (Str.split Pathlib.slash s).
Proof.
  unfold climbs. intros H. apply Forall_forall. intros c Hc ->.
  assert (Hex : existsb (String.eqb "..") (Str.split Pathlib.slash s) = true); [|congruence].
  apply existsb_exists. exists "..". split; [|done]. by apply list_elem_of_In.
Qed.

Lemma false_climbs s :
  Forall (fun c => c ≠ "..") (Str.split Pathlib.slash s) → climbs s = false.
Proof.
  unfold climbs. intros H. destruct (existsb _ _) eqn:Hex; [|done].
  apply existsb_exists in Hex as (c & Hin%list_elem_of_In & Hc%String.eqb_eq).
  rewrite Forall_forall in H. by destruct (H c Hin).
Qed.

Lemma components_climb s :
  climbs s = false → Forall (fun c => c ≠ "..") (Pathlib.components s).
Proof. intros H. by apply filter_Forall, climbs_false. Qed.

(** Joining a string that neither starts with a slash nor climbs leads
    further down. *)
Lemma lies_under_join p base s :
  Str.startswith "/" s = false → climbs s = false →
  lies_under p base → lies_under (p </> s) base.
Proof.
  intros Hs Hclimb H. rewrite (join_relative _ _ Hs).
  by apply lies_under_app; [apply components_climb|].
Qed.

(** The fields of two strings put end to end: the last field of the
    first and the first field of the second become one. *)
Lemma split_append sep s1 s2 :
  ∃ fs1 l1 h2 t2,
    Str.split sep s1 = fs1 ++ [l1] ∧
    Str.split sep s2 = h2 :: t2 ∧
    Str.split sep (s1 +:+ s2) = fs1 ++ (l1 +:+ h2) :: t2.
Proof.
  induction s1 as [|c s1 (fs1 & l1 & h2 & t2 & H1 & H2 & H12)].
  - pose proof (split_nonempty sep s2) as Hne.
    change (Str.split sep ("" +:+ s2)) with (Str.split sep s2).
    destruct (Str.split sep s2) as [|h2 t2]; [done|].
    by exists [], "", h2, t2.
  - change (String c s1 +:+ s2) with (String c (s1 +:+ s2)).
    cbn [Str.split]. rewrite H1, H12. destruct (Ascii.eqb c sep).
    + by exists ("" :: fs1), l1, h2, t2.
    + destruct fs1 as [|f fs1]; simpl.
      * by exists [], (String c l1), h2, t2.
      * by exists (String c f :: fs1), l1, h2, t2.
Qed.

Lemma Forall_split_append (P : string → Prop) sep s1 s2 :
  Forall P (Str.split sep s1) →
  Forall P (tail (Str.split sep s2)) →
  (∀ l, P (l +:+ hd "" (Str.split sep s2))) →
  Forall P (Str.split sep (s1 +:+ s2)).
Proof.
  destruct (split_append sep s1 s2) as (fs1 & l1 & h2 & t2 & -> & -> & ->).
  intros [H1 _]%Forall_app Ht Hglue. apply Forall_app. split; [done|].
  constructor; [apply (Hglue l1)|done].
Qed.

Lemma underscore_is_no_parent l f : l +:+ String "_" f ≠ "..".
Proof.
  intros H. apply (f_equal (Str.count "_")) in H.
  rewrite count_app in H. simpl in H. lia.
Qed.

(** The file name of an image climbs no more than the subject directory
    and the session do. *)
Lemma image_filename_climbs r input_filename :
  climbs ("sub-CONT" +:+ subject_id_of r) = false →
  climbs (session_id r) = false →
  Str.count "/" input_filename = 0%nat →
  climbs (image_filename r input_filename) = false.
Proof.
  intros Hid Hses Hname. apply false_climbs.
  assert (Hpattern : Str.count "/" (drop_two_fields input_filename) = 0%nat).
  { unfold drop_two_fields. rewrite count_join; [done|done|].
    by apply Forall_drop, split_fields_other. }
  assert (Htail : Forall (fun c => c ≠ "..")
            (Str.split Pathlib.slash
               (session_id r +:+ String "_" (drop_two_fields input_filename)))).
  { apply Forall_split_append; [by apply climbs_false| |].
    - unfold Pathlib.slash. simpl.
      change (Ascii.eqb "_" "/") with false. cbv iota.
      by rewrite (split_no_separator _ _ Hpattern).
    - intros l. unfold Pathlib.slash. simpl.
      change (Ascii.eqb "_" "/") with false. cbv iota.
      rewrite (split_no_separator _ _ Hpattern). apply underscore_is_no_parent. }
  change (image_filename r input_filename)
    with (("sub-CONT" +:+ subject_id_of r)
            +:+ String "_" (session_id r +:+ String "_" (drop_two_fields input_filename))).
  apply Forall_split_append; [by apply climbs_false| |].
  - unfold Pathlib.slash in *. simpl. change (Ascii.eqb "_" "/") with false. cbv iota.
    destruct (Str.split "/" _) as [|f fs]; [done|]. simpl. by inversion Htail.
  - intros l. unfold Pathlib.slash. simpl. change (Ascii.eqb "_" "/") with false. cbv iota.
    destruct (Str.split "/" _) as [|f fs]; simpl; apply underscore_is_no_parent.
Qed.

(** ** Data frames *)

Lemma rev_reverse {A} (l : list A) : rev l = reverse l.
Proof. unfold reverse. by rewrite rev_alt. Qed.

Lemma manifest_row_three r : three_cells (manifest_row r).
Proof. reflexivity. Qed.

Lemma reindex_three r : three_cells r → Pandas.reindex columns columns r = r.
Proof. destruct r as [|c0 [|c1 [|c2 [|c3 r]]]]; by intros [=]. Qed.

Lemma reindex_three_all rs :
  Forall three_cells rs → List.map (Pandas.reindex columns columns) rs = rs.
Proof.
  induction 1 as [|r rs Hr _ IH]; [done|].
  cbn [List.map]. by rewrite IH, (reindex_three r Hr).
Qed.

(** The frame a job returns: the initial empty frame and its row. *)
Lemma concat_first_row r :
  three_cells r →
  Pandas.concat [Pandas.of_columns columns; Pandas.of_rows [r] columns]
  = Pandas.of_rows [r] columns.
Proof.
  destruct r as [|c0 [|c1 [|c2 [|c3 r]]]]; by intros [=].
Qed.

Lemma concat_in_front_of_empty r :
  three_cells r →
  Pandas.concat [Pandas.of_rows [r] columns; Pandas.empty] = Pandas.of_rows [r] columns.
Proof.
  destruct r as [|c0 [|c1 [|c2 [|c3 r]]]]; by intros [=].
Qed.

Lemma concat_in_front r rs :
  three_cells r → Forall three_cells rs →
  Pandas.concat [Pandas.of_rows [r] columns; Pandas.of_rows rs columns]
  = Pandas.of_rows (r :: rs) columns.
Proof.
  intros Hr Hrs. unfold Pandas.concat, Pandas.of_rows. cbn [List.map df_rows df_columns List.concat].
  change (Pandas.union_columns _) with columns.
  rewrite (reindex_three r Hr), (reindex_three_all rs Hrs).
  cbn [app]. by rewrite app_nil_r.
Qed.

(** The gathering loop, started from a frame that already holds rows. *)
Lemma gather_from rs acc :
  Forall three_cells rs → Forall three_cells acc → rs ≠ [] ∨ acc ≠ [] →
  fold_left (fun output_df result => Pandas.concat [result; output_df])
    (List.map (fun r => Pandas.of_rows [r] columns) rs)
    (if acc is [] then Pandas.empty else Pandas.of_rows acc columns)
  = Pandas.of_rows (rev rs ++ acc) columns.
Proof.
  intros Hrs. revert acc. induction Hrs as [|r rs Hr Hrs IH]; intros acc Hacc Hne.
  - destruct Hne as [|Hne]; [done|]. simpl. by destruct acc.
  - simpl. rewrite <- app_assoc. simpl.
    rewrite <- (IH (r :: acc)); [|by constructor|by right].
    f_equal. destruct acc as [|r' acc].
    + by apply concat_in_front_of_empty.
    + by apply concat_in_front.
Qed.

(** The manifest gathered from the frames of the jobs: the rows in the
    reverse order, under the three columns as soon as there is a row. *)
Lemma gather_rows rs :
  Forall three_cells rs →
  gather (List.map (fun r => Pandas.of_rows [r] columns) rs)
  = if rs is [] then Pandas.empty else Pandas.of_rows (rev rs) columns.
Proof.
  intros Hrs. destruct rs as [|r rs]; [done|].
  unfold gather. rewrite (gather_from (r :: rs) [] Hrs); [|constructor|by left].
  by rewrite app_nil_r.
Qed.

(** ** One job *)

Section Job.

Context (W : World) (a : Args) (data_df : list InRow)
  (caps_dict : gmap string Path) (file_type : FileType W).

Lemma index_inr {A} (xs : list A) i x : index xs i = inr x → xs !! i = Some x.
Proof. unfold index. destruct (xs !! i); intros H; by simplify_eq. Qed.

Lemma index_field sep s i x : index (Str.split sep s) i = inr x → field sep s i = x.
Proof. intros H. unfold field. by rewrite (index_inr _ _ _ H). Qed.

(** A job that returns has gone through every step, has written its
    directory and its image, and returns the frame of its one row. *)
Lemma job_returns i t df :
  job W a data_df caps_dict file_type i = (t, inr df) →
  ∃ r first img,
    data_df !! i = Some r ∧
    processed W a caps_dict file_type i r first img ∧
    t = job_trace a r first img ∧
    df = Pandas.of_rows [manifest_row r] columns.
Proof.
  unfold job, create_contrast_image. intros H.
  apply bind_inr in H as (t0 & r & ? & Hr%lift_inr & H & ->).
  apply bind_inr in H as (? & caps & ? & Hcaps%lift_inr & H & ->).
  apply bind_inr in H as (? & found & ? & Hfound%lift_inr & H & ->).
  apply bind_inr in H as (? & first & ? & Hfirst%lift_inr & H & ->).
  apply bind_inr in H as (? & subject_id & ? & Hid%lift_inr & H & ->).
  apply bind_inr in H as (? & [] & ? & Hmk%emit_inr & H & ->).
  apply bind_inr in H as (? & g0 & ? & Hg0%lift_inr & H & ->).
  apply bind_inr in H as (? & g1 & ? & Hg1%lift_inr & H & ->).
  apply bind_inr in H as (? & contrast & ? & Hgamma%lift_inr & H & ->).
  apply bind_inr in H as (? & img & ? & Himg%lift_inr & H & ->).
  apply bind_inr in H as (? & [] & ? & Hsave%emit_inr & H & ->).
  injection H as <- <-.
  destruct Hr as [Hr ->], Hcaps as [Hcaps ->], Hfound as [Hfound ->],
    Hfirst as [Hfirst ->], Hid as [Hid ->], Hmk as [_ ->], Hg0 as [Hg0 ->],
    Hg1 as [Hg1 ->], Hgamma as [Hgamma ->], Himg as [Himg ->], Hsave as [_ ->].
  unfold loc in Hr. destruct (data_df !! i) as [r'|] eqn:Hrow; [|done].
  injection Hr as ->.
  unfold getitem in Hcaps. destruct (caps_dict !! cohort r) as [caps'|] eqn:Hc; [|done].
  injection Hcaps as ->.
  pose proof (index_field _ _ _ _ Hid) as Hsub.
  exists r, first, img. split; [done|]. split; [|split].
  - exists caps, found, g0, g1, contrast.
    repeat split; eauto using index_inr.
  - unfold job_trace, image_file, image_dir, image_filename, subject_id_of.
    rewrite Hsub. reflexivity.
  - unfold manifest_row, subject_id_of. rewrite Hsub.
    apply concat_first_row. reflexivity.
Qed.

(** No job writes the manifest or the report. *)
Lemma job_writes_no_manifest i output_df :
  all_events (fun ev => is_manifest_write ev = false)
    (create_contrast_image W a data_df caps_dict file_type i output_df).
Proof.
  unfold create_contrast_image.
  repeat first
    [ apply all_events_lift | apply all_events_ret
    | apply all_events_emit; reflexivity
    | apply all_events_bind; [|intros ? ? _] ].
Qed.

End Job.

(** ** A whole run *)

Section Run.

Context (W : World) (a : Args).

(** The jobs of a run, in the order of the rows. *)
Lemma jobs_lookup data_df caps_dict file_type i :
  (i < length data_df)%nat →
  List.map (job W a data_df caps_dict file_type) (seq 0 (length data_df)) !! i
  = Some (job W a data_df caps_dict file_type i).
Proof.
  intros Hi. change (List.map ?f ?l) with (f <$> l).
  rewrite list_lookup_fmap, lookup_seq_lt; done.
Qed.

(** When all the jobs return, they return the frames of the rows, and
    every row is processed. *)
Lemma jobs_return data_df caps_dict file_type ts results :
  Forall3 (fun task ti x => task = (ti, inr x))
    (List.map (job W a data_df caps_dict file_type) (seq 0 (length data_df)))
    ts results →
  results = List.map (fun r => Pandas.of_rows [r] columns)
              (List.map manifest_row data_df) ∧
  length ts = length data_df ∧
  ∀ i r, data_df !! i = Some r →
    ∃ first img,
      processed W a caps_dict file_type i r first img ∧
      ts !! i = Some (job_trace a r first img).
Proof.
  intros Hall.
  pose proof (Forall3_length_lm _ _ _ _ Hall) as Hlen_ts.
  pose proof (Forall3_length_lr _ _ _ _ Hall) as Hlen_res.
  rewrite length_map, length_seq in Hlen_ts, Hlen_res.
  assert (Hat : ∀ i r, data_df !! i = Some r →
    ∃ first img, processed W a caps_dict file_type i r first img ∧
      ts !! i = Some (job_trace a r first img) ∧
      results !! i = Some (Pandas.of_rows [manifest_row r] columns)).
  { intros i r Hr. pose proof (lookup_lt_Some _ _ _ Hr) as Hi.
    destruct (lookup_lt_is_Some_2 ts i) as [ti Hti]; [lia|].
    destruct (lookup_lt_is_Some_2 results i) as [x Hx]; [lia|].
    pose proof (Forall3_lookup_lmr _ _ _ _ _ _ _ _ Hall
                  (jobs_lookup data_df caps_dict file_type i Hi) Hti Hx) as Hjob.
    simpl in Hjob.
    apply job_returns in Hjob as (r' & first & img & Hr' & Hp & -> & ->).
    rewrite Hr in Hr'. injection Hr' as <-. by exists first, img. }
  split; [|split; [done|]].
  - apply list_eq. intros i.
    rewrite map_map. change (List.map ?f ?l) with (f <$> l).
    rewrite list_lookup_fmap.
    destruct (data_df !! i) as [r|] eqn:Hr; simpl.
    + by destruct (Hat i r Hr) as (? & ? & _ & _ & ->).
    + apply lookup_ge_None. apply lookup_ge_None in Hr. lia.
  - intros i r Hr. destruct (Hat i r Hr) as (first & img & ? & ? & _). eauto.
Qed.

Lemma gather_manifest data_df :
  gather (List.map (fun r => Pandas.of_rows [r] columns) (List.map manifest_row data_df))
  = manifest_of data_df.
Proof.
  rewrite gather_rows.
  - unfold manifest_of. by destruct data_df.
  - induction data_df as [|r rs IH]; constructor; [apply manifest_row_three|exact IH].
Qed.

(** What a run that goes through lines 61-135 has done. *)
Lemma outputs_returns tr df :
  generate_contrast_dataset_outputs W a = (tr, inr df) →
  ∃ caps_dict data_df file_type ts,
    create_caps_dict W (caps_directory a) (multi_cohort a) = inr caps_dict ∧
    load_and_check_tsv W (tsv_path a) caps_dict (output_dir a) = inr data_df ∧
    find_file_type W (preprocessing a) (uncropped_image a) (tracer a)
      (suvr_reference_region a) = inr file_type ∧
    n_proc a ≠ 0 ∧
    length ts = length data_df ∧
    (∀ i r, data_df !! i = Some r →
       ∃ first img,
         processed W a caps_dict file_type i r first img ∧
         ts !! i = Some (job_trace a r first img)) ∧
    df = manifest_of data_df ∧
    tr = [EJson (invocation_record a); EMkdir (output_dir a </> "subjects")]
         ++ List.concat (shuffle (schedule W (n_proc a) (length data_df)) ts)
         ++ [EToCsv (output_dir a </> "data.tsv") tab df; EMissingMods (output_dir a) df].
Proof.
  unfold generate_contrast_dataset_outputs. intros H.
  apply bind_inr in H as (? & [] & ? & [_ ->]%emit_inr & H & ->).
  apply bind_inr in H as (? & caps_dict & ? & [Hcaps ->]%lift_inr & H & ->).
  apply bind_inr in H as (? & data_df & ? & [Hdata ->]%lift_inr & H & ->).
  apply bind_inr in H as (? & [] & ? & [_ ->]%emit_inr & H & ->).
  apply bind_inr in H as (? & file_type & ? & [Hft ->]%lift_inr & H & ->).
  apply bind_inr in H as (tjobs & results & ? & Hjobs & H & ->).
  apply bind_inr in H as (? & [] & ? & [_ ->]%emit_inr & H & ->).
  apply bind_inr in H as (? & [] & ? & [_ ->]%emit_inr & H & ->).
  injection H as <- <-.
  apply Parallel_inr in Hjobs as (Hn & ts & Hall & ->).
  rewrite length_map, length_seq.
  apply jobs_return in Hall as (-> & Hlen & Hrows).
  rewrite gather_manifest.
  exists caps_dict, data_df, file_type, ts.
  repeat split; done.
Qed.

(** Reaching the last line means raising [NameError]: the trace of the
    whole call is the trace of lines 61-135. *)
Lemma run_after_outputs tr df :
  generate_contrast_dataset_outputs W a = (tr, inr df) →
  generate_contrast_dataset W a = (tr, inl (NameError "logger")).
Proof.
  intros H. unfold generate_contrast_dataset.
  erewrite bind_ok; [|exact H|reflexivity]. by rewrite app_nil_r.
Qed.

Lemma run_failure tr e :
  generate_contrast_dataset_outputs W a = (tr, inl e) →
  generate_contrast_dataset W a = (tr, inl e).
Proof. intros H. unfold generate_contrast_dataset. by erewrite bind_fail. Qed.

Lemma run_trace :
  trace (generate_contrast_dataset W a) = trace (generate_contrast_dataset_outputs W a).
Proof.
  destruct (generate_contrast_dataset_outputs W a) as [tr [e|df]] eqn:H.
  - by rewrite (run_failure _ _ H).
  - by rewrite (run_after_outputs _ _ H).
Qed.

End Run.

(** ** Where the manifest comes from *)

Section Manifest.

Context (W : World) (a : Args).

Lemma elem_of_trace_bind {A B} (m : M W A) (k : A → M W B) ev :
  ev ∈ trace (m ≫= k) →
  ev ∈ trace m ∨ ∃ t x, m = (t, inr x) ∧ ev ∈ trace (k x).
Proof.
  unfold trace, mbind, M_bind, bind. destruct m as [t [e|x]]; simpl; [by left|].
  destruct (k x) as [t' r] eqn:Hk; simpl.
  intros [H|H]%elem_of_app; [by left|]. right. exists t, x. by rewrite Hk.
Qed.

Lemma elem_of_trace_emit ev ev' : ev ∈ trace (emit W ev') → ev = ev'.
Proof.
  unfold trace, emit. destruct (fs_ok W ev'); simpl.
  - by intros ?%elem_of_nil.
  - by intros ?%list_elem_of_singleton.
Qed.

(** The manifest and the report are written only after every job has
    returned, and what is written is the manifest of the rows read. *)
Lemma manifest_write_inv ev :
  ev ∈ trace (generate_contrast_dataset_outputs W a) →
  is_manifest_write ev = true →
  ∃ caps_dict data_df,
    create_caps_dict W (caps_directory a) (multi_cohort a) = inr caps_dict ∧
    load_and_check_tsv W (tsv_path a) caps_dict (output_dir a) = inr data_df ∧
    (∀ file_type i,
       find_file_type W (preprocessing a) (uncropped_image a) (tracer a)
         (suvr_reference_region a) = inr file_type →
       (i < length data_df)%nat →
       ∃ t df, job W a data_df caps_dict file_type i = (t, inr df)) ∧
    (ev = EToCsv (output_dir a </> "data.tsv") tab (manifest_of data_df) ∨
     ev = EMissingMods (output_dir a) (manifest_of data_df)).
Proof.
  unfold generate_contrast_dataset_outputs. intros Hin Hev.
  apply elem_of_trace_bind in Hin as [->%elem_of_trace_emit|(? & [] & _ & Hin)]; [done|].
  apply elem_of_trace_bind in Hin as [[]%elem_of_nil|(? & caps_dict & [Hcaps _]%lift_inr & Hin)].
  apply elem_of_trace_bind in Hin as [[]%elem_of_nil|(? & data_df & [Hdata _]%lift_inr & Hin)].
  apply elem_of_trace_bind in Hin as [->%elem_of_trace_emit|(? & [] & _ & Hin)]; [done|].
  apply elem_of_trace_bind in Hin as [[]%elem_of_nil|(? & file_type & [Hft _]%lift_inr & Hin)].
  apply elem_of_trace_bind in Hin as [Hin|(tjobs & results & Hjobs & Hin)].
  { exfalso.
    assert (Hnone : all_events (fun ev => is_manifest_write ev = false)
              (Parallel (n_proc a)
                 (List.map
                    (fun data_idx =>
                       create_contrast_image W a data_df caps_dict file_type data_idx
                         (Pandas.of_columns columns))
                    (seq 0 (length data_df))))).
    { apply all_events_Parallel, Forall_forall.
      intros task (i & -> & _)%list_elem_of_fmap. apply job_writes_no_manifest. }
    unfold all_events in Hnone. rewrite Forall_forall in Hnone.
    specialize (Hnone _ Hin). congruence. }
  apply Parallel_inr in Hjobs as (_ & ts & Hall & ->).
  pose proof (Forall3_length_lm _ _ _ _ Hall) as Hlen_ts.
  pose proof (Forall3_length_lr _ _ _ _ Hall) as Hlen_res.
  rewrite length_map, length_seq in Hlen_ts, Hlen_res.
  assert (Hreturn : ∀ file_type' i,
    find_file_type W (preprocessing a) (uncropped_image a) (tracer a)
      (suvr_reference_region a) = inr file_type' →
    (i < length data_df)%nat →
    ∃ t df, job W a data_df caps_dict file_type' i = (t, inr df)).
  { intros file_type' i Hft' Hi. rewrite Hft in Hft'. injection Hft' as <-.
    destruct (lookup_lt_is_Some_2 ts i) as [ti Hti]; [lia|].
    destruct (lookup_lt_is_Some_2 results i) as [res Hres]; [lia|].
    exists ti, res.
    exact (Forall3_lookup_lmr _ _ _ _ _ _ _ _ Hall
             (jobs_lookup W a data_df caps_dict file_type i Hi) Hti Hres). }
  apply (jobs_return W a) in Hall as (-> & _ & _).
  rewrite gather_manifest in Hin.
  exists caps_dict, data_df. split; [done|]. split; [done|]. split; [done|].
  apply elem_of_trace_bind in Hin as [->%elem_of_trace_emit|(? & [] & _ & Hin)]; [by left|].
  apply elem_of_trace_bind in Hin as [->%elem_of_trace_emit|(? & [] & _ & Hin)]; [by right|].
  by apply elem_of_nil in Hin.
Qed.

End Manifest.

(** * The claims *)

(** Membership in a list that is written out. *)
Ltac in_list :=
  repeat first [apply list_elem_of_here | apply list_elem_of_further].

(** ** The manifest *)

(** C1. A run that goes through has read a manifest [data_df] and has
    written [data.tsv] with as many rows as [data_df]: the rows written
    are the rows made from the rows read, one for one. *)
Theorem manifest_has_one_row_per_input_row (W : World) (a : Args) tr df :
  generate_contrast_dataset_outputs W a = (tr, inr df) →
  ∃ caps_dict data_df,
    create_caps_dict W (caps_directory a) (multi_cohort a) = inr caps_dict ∧
    load_and_check_tsv W (tsv_path a) caps_dict (output_dir a) = inr data_df ∧
    EToCsv (output_dir a </> "data.tsv") tab df ∈ trace (generate_contrast_dataset W a) ∧
    Pandas.len df = length data_df ∧
    df_rows df ≡ₚ List.map manifest_row data_df.
Proof.
  intros H. rewrite (run_after_outputs W a _ _ H).
  apply outputs_returns in H
    as (caps_dict & data_df & ft & ts & Hcaps & Hdata & _ & _ & _ & _ & Hdf & ->).
  exists caps_dict, data_df. split; [done|]. split; [done|]. split.
  { unfold trace; simpl. rewrite !elem_of_cons, elem_of_app, !elem_of_cons. eauto 10. }
  rewrite Hdf. unfold manifest_of, Pandas.len. destruct data_df as [|r rs]; [done|].
  cbn [df_rows Pandas.of_rows]. split.
  - by rewrite length_rev, length_map.
  - by rewrite rev_reverse, reverse_Permutation.
Qed.

Lemma manifest_has_one_row_per_input_row_witness :
  ∃ caps_dict data_df df,
    create_caps_dict Demo.world Demo.caps false = inr caps_dict ∧
    load_and_check_tsv Demo.world (Some "two.tsv") caps_dict Demo.out = inr data_df ∧
    EToCsv (Demo.out </> "data.tsv") tab df
      ∈ trace (generate_contrast_dataset Demo.world (Demo.args "two.tsv" default_gamma 2)) ∧
    Pandas.len df = length data_df ∧
    df_rows df ≡ₚ List.map manifest_row data_df.
Proof.
  destruct (generate_contrast_dataset_outputs Demo.world
              (Demo.args "two.tsv" default_gamma 2)) as [tr [e|df]] eqn:H;
    [by vm_compute in H|].
  destruct (manifest_has_one_row_per_input_row _ _ _ _ H)
    as (caps_dict & data_df & ? & ? & ? & ? & ?).
  by exists caps_dict, data_df, df.
Defined.

(** C10. The final loop puts every result in front of what it has
    gathered, so the rows of [data.tsv] are the rows of the manifest read,
    in the reverse order. *)
Theorem manifest_rows_are_reversed (W : World) (a : Args) tr df caps_dict data_df :
  generate_contrast_dataset_outputs W a = (tr, inr df) →
  create_caps_dict W (caps_directory a) (multi_cohort a) = inr caps_dict →
  load_and_check_tsv W (tsv_path a) caps_dict (output_dir a) = inr data_df →
  (∀ results result,
     gather (results ++ [result]) = Pandas.concat [result; gather results]) ∧
  EToCsv (output_dir a </> "data.tsv") tab df ∈ trace (generate_contrast_dataset W a) ∧
  df_rows df = rev (List.map manifest_row data_df).
Proof.
  intros H Hcaps Hdata. split.
  { intros results result. unfold gather. by rewrite fold_left_app. }
  rewrite (run_after_outputs W a _ _ H).
  apply outputs_returns in H
    as (caps_dict' & data_df' & ft & ts & Hcaps' & Hdata' & _ & _ & _ & _ & Hdf & ->).
  rewrite Hcaps in Hcaps'. injection Hcaps' as <-.
  rewrite Hdata in Hdata'. injection Hdata' as <-.
  split.
  { unfold trace; simpl. rewrite !elem_of_cons, elem_of_app, !elem_of_cons. eauto 10. }
  rewrite Hdf. unfold manifest_of. by destruct data_df.
Qed.

Lemma manifest_rows_are_reversed_witness :
  ∃ df,
    EToCsv (Demo.out </> "data.tsv") tab df
      ∈ trace (generate_contrast_dataset Demo.world (Demo.args "three.tsv" default_gamma 2)) ∧
    df_rows df = [[Some "sub-CONTC"; Some "ses-M00"; Some "contrast"];
                  [Some "sub-CONTB"; Some "ses-M00"; Some "contrast"];
                  [Some "sub-CONTA"; Some "ses-M00"; Some "contrast"]].
Proof.
  destruct (generate_contrast_dataset_outputs Demo.world
              (Demo.args "three.tsv" default_gamma 2)) as [tr [e|df]] eqn:H;
    [by vm_compute in H|].
  exists df.
  exact (proj2 (manifest_rows_are_reversed Demo.world _ tr df
                  {[ "single" := Demo.caps ]}
                  [mkInRow "sub-A" "ses-M00" "single";
                   mkInRow "sub-B" "ses-M00" "single";
                   mkInRow "sub-C" "ses-M00" "single"]
                  H eq_refl eq_refl)).
Defined.

(** C9. Every row of a manifest that a run writes has the diagnosis
    ["contrast"] and a participant that starts with ["sub-CONT"]. *)
Theorem manifest_rows_are_labelled (W : World) (a : Args) file sep df row :
  EToCsv file sep df ∈ trace (generate_contrast_dataset W a) →
  row ∈ df_rows df →
  Pandas.at_column (df_columns df) row "diagnosis" = Some "contrast" ∧
  ∃ subject_id,
    Pandas.at_column (df_columns df) row "participant_id"
    = Some ("sub-CONT" +:+ subject_id).
Proof.
  rewrite run_trace. intros Hin Hrow.
  apply manifest_write_inv in Hin as (caps_dict & data_df & _ & _ & _ & Hev); [|done].
  destruct Hev as [[= _ _ ->]|[=]].
  unfold manifest_of in Hrow |- *. destruct data_df as [|r0 rs].
  { by apply elem_of_nil in Hrow. }
  cbn [df_rows df_columns Pandas.of_rows] in Hrow |- *.
  rewrite rev_reverse, elem_of_reverse in Hrow.
  apply list_elem_of_fmap in Hrow as (r & -> & _).
  split; [reflexivity|]. by exists (subject_id_of r).
Qed.

Lemma manifest_rows_are_labelled_witness :
  Pandas.at_column columns
    [Some "sub-CONTOAS42"; Some "ses-M06"; Some "contrast"] "diagnosis"
  = Some "contrast" ∧
  ∃ subject_id,
    Pandas.at_column columns
      [Some "sub-CONTOAS42"; Some "ses-M06"; Some "contrast"] "participant_id"
    = Some ("sub-CONT" +:+ subject_id).
Proof.
  apply (manifest_rows_are_labelled Demo.world (Demo.args "two.tsv" default_gamma 2)
           (Demo.out </> "data.tsv") tab
           (Pandas.of_rows
              [[Some "sub-CONTOAS42"; Some "ses-M06"; Some "contrast"];
               [Some "sub-CONTADNI001"; Some "ses-M00"; Some "contrast"]] columns)).
  - vm_compute. in_list.
  - vm_compute. in_list.
Defined.

(** ** The images *)

Lemma elem_of_concat {A} (x : A) (ls : list (list A)) l :
  l ∈ ls → x ∈ l → x ∈ List.concat ls.
Proof.
  induction 1 as [l ls|l l' ls _ IH]; simpl; rewrite elem_of_app; [by left|].
  intros Hx. right. by apply IH.
Qed.

Lemma elem_of_job_trace {Image} (a : Args) r first (img : Image)
    (ts : list (list (Event Image))) choices i before after ev :
  ts !! i = Some (job_trace a r first img) →
  ev ∈ job_trace a r first img →
  ev ∈ before ++ List.concat (shuffle choices ts) ++ after.
Proof.
  intros Hi Hev. rewrite !elem_of_app. right; left.
  eapply elem_of_concat; [|exact Hev].
  rewrite shuffle_Permutation. by eapply list_elem_of_lookup_2.
Qed.

(** C2, as the code has it. For every row that is processed, the image is
    saved under the name ["sub-CONT<id>_<session>_<suffix>"], where [<id>]
    is the second field of [participant_id] split at its hyphens, [<session>]
    is [session_id], and [<suffix>] is the name of the input image without
    its first two fields split at underscores. When [participant_id] has a
    single hyphen, [<id>] is all that follows it. *)
Theorem image_filename_convention (W : World) (a : Args) tr df caps_dict data_df i r :
  generate_contrast_dataset_outputs W a = (tr, inr df) →
  create_caps_dict W (caps_directory a) (multi_cohort a) = inr caps_dict →
  load_and_check_tsv W (tsv_path a) caps_dict (output_dir a) = inr data_df →
  data_df !! i = Some r →
  ∃ caps found first img,
    caps_dict !! cohort r = Some caps ∧
    (∃ file_type,
       clinica_file_reader W [participant_id r] [session_id r] caps file_type
       = inr found) ∧
    fst found !! 0%nat = Some first ∧
    ESave
      (image_dir a r
         </> ("sub-CONT" +:+ field "-" (participant_id r) 1 +:+ "_" +:+ session_id r
                +:+ "_"
                +:+ Str.join "_" (drop 2 (Str.split "_" (Pathlib.name (Pathlib.parse first))))))
      img
      ∈ trace (generate_contrast_dataset W a) ∧
    (Str.count "-" (participant_id r) = 1%nat →
     field "-" (participant_id r) 1 = after_first_hyphen (participant_id r)).
Proof.
  intros H Hcaps Hdata Hr. rewrite (run_after_outputs W a _ _ H).
  apply outputs_returns in H
    as (caps_dict' & data_df' & ft & ts & Hcaps' & Hdata' & _ & _ & _ & Hrows & _ & ->).
  rewrite Hcaps in Hcaps'. injection Hcaps' as <-.
  rewrite Hdata in Hdata'. injection Hdata' as <-.
  destruct (Hrows i r Hr) as (first & img & Hp & Hti).
  destruct Hp as (caps & found & g0 & g1 & contrast & Hc & Hfound & Hfirst & _).
  exists caps, found, first, img. repeat split; eauto.
  - eapply elem_of_job_trace; [exact Hti|]. unfold job_trace.
    rewrite !elem_of_cons. right; left. reflexivity.
  - apply field_one_hyphen.
Qed.

Lemma image_filename_convention_witness :
  ∃ caps found first img,
    ({[ "single" := Demo.caps ]} : gmap string Path) !! "single" = Some caps ∧
    (∃ file_type,
       clinica_file_reader Demo.world ["sub-OAS42"] ["ses-M06"] caps file_type
       = inr found) ∧
    fst found !! 0%nat = Some first ∧
    ESave
      (image_dir (Demo.args "two.tsv" default_gamma 2)
         (mkInRow "sub-OAS42" "ses-M06" "single")
         </> ("sub-CONT" +:+ field "-" "sub-OAS42" 1 +:+ "_" +:+ "ses-M06" +:+ "_"
                +:+ Str.join "_" (drop 2 (Str.split "_" (Pathlib.name (Pathlib.parse first))))))
      img
      ∈ trace (generate_contrast_dataset Demo.world (Demo.args "two.tsv" default_gamma 2)) ∧
    (Str.count "-" "sub-OAS42" = 1%nat →
     field "-" "sub-OAS42" 1 = after_first_hyphen "sub-OAS42").
Proof.
  destruct (generate_contrast_dataset_outputs Demo.world
              (Demo.args "two.tsv" default_gamma 2)) as [tr [e|df]] eqn:H;
    [by vm_compute in H|].
  exact (image_filename_convention Demo.world _ tr df
           {[ "single" := Demo.caps ]}
           [mkInRow "sub-ADNI001" "ses-M00" "single";
            mkInRow "sub-OAS42" "ses-M06" "single"]
           1%nat (mkInRow "sub-OAS42" "ses-M06" "single")
           H eq_refl eq_refl eq_refl).
Defined.

(** C2, as it is written, fails on a participant with two hyphens: for
    ["sub-ADNI-001"] the image is saved as ["sub-CONTADNI_..."], while the
    part after the first hyphen is ["ADNI-001"]. *)
Lemma filename_after_first_hyphen_fails :
  ∃ df img,
    generate_contrast_dataset_outputs Demo.world
      (Demo.args "hyphens.tsv" default_gamma 2)
    = ([EJson (invocation_record (Demo.args "hyphens.tsv" default_gamma 2));
        EMkdir (Pathlib.parse "/data/out/subjects");
        EMkdir (Pathlib.parse "/data/out/subjects/sub-CONTADNI/ses-M00/t1-linear");
        ESave
          (Pathlib.parse
             "/data/out/subjects/sub-CONTADNI/ses-M00/t1-linear/sub-CONTADNI_ses-M00_T1w.nii.gz")
          img;
        EToCsv (Pathlib.parse "/data/out/data.tsv") tab df;
        EMissingMods (Pathlib.parse "/data/out") df],
       inr df) ∧
    load_and_check_tsv Demo.world (Some "hyphens.tsv") {[ "single" := Demo.caps ]} Demo.out
    = inr [mkInRow "sub-ADNI-001" "ses-M00" "single"] ∧
    spec_filename (mkInRow "sub-ADNI-001" "ses-M00" "single")
      "sub-ADNI-001_ses-M00_T1w.nii.gz"
    = "sub-CONTADNI-001_ses-M00_T1w.nii.gz" ∧
    "sub-CONTADNI_ses-M00_T1w.nii.gz"
    ≠ spec_filename (mkInRow "sub-ADNI-001" "ses-M00" "single")
        "sub-ADNI-001_ses-M00_T1w.nii.gz".
Proof.
  eexists _, _. split; [vm_compute; reflexivity|]. repeat split. by vm_compute.
Qed.

(** C7, as the code has it. For every row that is processed, the
    directory [output_dir / "subjects" / "sub-CONT<id>" / session_id /
    preprocessing] is made and the transformed image of the row is saved
    in it. When neither the session nor the preprocessing starts with a
    slash, that directory is [output_dir] followed by [subjects], the
    components of ["sub-CONT<id>"], those of the session and those of the
    preprocessing, and the file is that directory followed by the
    components of the file name. When moreover none of the three has [..]
    among its components, the directory lies beneath
    [output_dir / "subjects" / "sub-CONT<id>"] in the file system, and the
    file beneath the directory. *)
Theorem image_written_under_its_directory (W : World) (a : Args) tr df caps_dict data_df i r :
  generate_contrast_dataset_outputs W a = (tr, inr df) →
  create_caps_dict W (caps_directory a) (multi_cohort a) = inr caps_dict →
  load_and_check_tsv W (tsv_path a) caps_dict (output_dir a) = inr data_df →
  data_df !! i = Some r →
  Str.startswith "/" (session_id r) = false →
  Str.startswith "/" (preprocessing a) = false →
  ∃ file_type first img,
    processed W a caps_dict file_type i r first img ∧
    EMkdir (image_dir a r) ∈ trace (generate_contrast_dataset W a) ∧
    ESave (image_file a r first) img ∈ trace (generate_contrast_dataset W a) ∧
    image_dir a r
    = {| root := root (output_dir a);
         parts := parts (output_dir a) ++ ["subjects"]
                    ++ Pathlib.components ("sub-CONT" +:+ subject_id_of r)
                    ++ Pathlib.components (session_id r)
                    ++ Pathlib.components (preprocessing a) |} ∧
    image_file a r first
    = {| root := root (output_dir a);
         parts := parts (image_dir a r)
                    ++ Pathlib.components
                         (image_filename r (Pathlib.name (Pathlib.parse first))) |} ∧
    (climbs ("sub-CONT" +:+ subject_id_of r) = false →
     climbs (session_id r) = false →
     climbs (preprocessing a) = false →
     lies_under (image_dir a r)
       (output_dir a </> "subjects" </> ("sub-CONT" +:+ subject_id_of r)) ∧
     lies_under (image_file a r first) (image_dir a r)).
Proof.
  intros H Hcaps Hdata Hr Hses Hprep. rewrite (run_after_outputs W a _ _ H).
  apply outputs_returns in H
    as (caps_dict' & data_df' & ft & ts & Hcaps' & Hdata' & _ & _ & _ & Hrows & _ & ->).
  rewrite Hcaps in Hcaps'. injection Hcaps' as <-.
  rewrite Hdata in Hdata'. injection Hdata' as <-.
  destruct (Hrows i r Hr) as (first & img & Hp & Hti).
  assert (Hdir : image_dir a r
            = {| root := root (output_dir a);
                 parts := parts (output_dir a) ++ ["subjects"]
                            ++ Pathlib.components ("sub-CONT" +:+ subject_id_of r)
                            ++ Pathlib.components (session_id r)
                            ++ Pathlib.components (preprocessing a) |}).
  { unfold image_dir.
    rewrite (join_relative _ (preprocessing a) Hprep), (join_relative _ (session_id r) Hses).
    rewrite (join_relative _ ("sub-CONT" +:+ subject_id_of r) eq_refl).
    rewrite (join_relative _ "subjects" eq_refl). cbn [root parts].
    change (Pathlib.components "subjects") with ["subjects"].
    by rewrite <- !app_assoc. }
  exists ft, first, img. split; [done|]. split; [|split; [|split; [done|split]]].
  - eapply elem_of_job_trace; [exact Hti|]. unfold job_trace.
    rewrite !elem_of_cons. by left.
  - eapply elem_of_job_trace; [exact Hti|]. unfold job_trace.
    rewrite !elem_of_cons. by right; left.
  - unfold image_file. rewrite (join_relative _ (image_filename _ _) eq_refl).
    by rewrite Hdir.
  - intros Hid_plain Hses_plain Hprep_plain. split.
    + unfold image_dir. do 2 (apply lies_under_join; [done|done|]). apply lies_under_refl.
    + unfold image_file. apply lies_under_join; [reflexivity| |apply lies_under_refl].
      apply image_filename_climbs; [done|done|apply name_no_slash].
Qed.

Lemma image_written_under_its_directory_witness :
  ∃ file_type first img,
    processed Demo.world (Demo.args "two.tsv" default_gamma 2)
      {[ "single" := Demo.caps ]} file_type 0
      (mkInRow "sub-ADNI001" "ses-M00" "single") first img ∧
    EMkdir (Pathlib.parse "/data/out/subjects/sub-CONTADNI001/ses-M00/t1-linear")
      ∈ trace (generate_contrast_dataset Demo.world (Demo.args "two.tsv" default_gamma 2)) ∧
    ESave
      (image_file (Demo.args "two.tsv" default_gamma 2)
         (mkInRow "sub-ADNI001" "ses-M00" "single") first)
      img
      ∈ trace (generate_contrast_dataset Demo.world (Demo.args "two.tsv" default_gamma 2)) ∧
    parts (image_file (Demo.args "two.tsv" default_gamma 2)
             (mkInRow "sub-ADNI001" "ses-M00" "single") first)
    = ["data"; "out"; "subjects"; "sub-CONTADNI001"; "ses-M00"; "t1-linear"]
      ++ Pathlib.components
           (image_filename (mkInRow "sub-ADNI001" "ses-M00" "single")
              (Pathlib.name (Pathlib.parse first))) ∧
    lies_under
      (image_file (Demo.args "two.tsv" default_gamma 2)
         (mkInRow "sub-ADNI001" "ses-M00" "single") first)
      (Pathlib.parse "/data/out/subjects/sub-CONTADNI001/ses-M00/t1-linear").
Proof.
  destruct (generate_contrast_dataset_outputs Demo.world
              (Demo.args "two.tsv" default_gamma 2)) as [tr [e|df]] eqn:H;
    [by vm_compute in H|].
  destruct (image_written_under_its_directory Demo.world _ tr df
              {[ "single" := Demo.caps ]}
              [mkInRow "sub-ADNI001" "ses-M00" "single";
               mkInRow "sub-OAS42" "ses-M06" "single"]
              0%nat (mkInRow "sub-ADNI001" "ses-M00" "single")
              H eq_refl eq_refl eq_refl eq_refl eq_refl)
    as (file_type & first & img & Hp & Hmk & Hsave & _ & Hfile & Hunder).
  exists file_type, first, img. split; [done|]. split; [exact Hmk|]. split; [done|].
  split; [by rewrite Hfile|]. by apply Hunder.
Defined.

(** C7, as it is written, fails on a session that is an absolute path:
    pathlib's [/] then drops [output_dir / "subjects" / "sub-CONT<id>"].
    With a file system that takes the image, the row is processed and its
    image is written beneath the session directory of the CAPS, not beneath
    [output_dir]. *)
Lemma absolute_session_leaves_subject_directory :
  ∃ img df,
    load_and_check_tsv Escape.world (Some "absolute.tsv") {[ "single" := Demo.caps ]} Demo.out
    = inr [mkInRow "sub-ADNI001" "/data/caps/subjects/sub-ADNI001/ses-M00" "single"] ∧
    generate_contrast_dataset_outputs Escape.world (Demo.args "absolute.tsv" default_gamma 2)
    = ([EJson (invocation_record (Demo.args "absolute.tsv" default_gamma 2));
        EMkdir (Pathlib.parse "/data/out/subjects");
        EMkdir (Pathlib.parse "/data/caps/subjects/sub-ADNI001/ses-M00/t1-linear");
        ESave
          (Pathlib.parse
             "/data/caps/subjects/sub-ADNI001/ses-M00/t1-linear/sub-CONTADNI001_/data/caps/subjects/sub-ADNI001/ses-M00_T1w.nii.gz")
          img;
        EToCsv (Pathlib.parse "/data/out/data.tsv") tab df;
        EMissingMods (Pathlib.parse "/data/out") df],
       inr df) ∧
    ¬ Pathlib.is_relative_to
        (Pathlib.parse
           "/data/caps/subjects/sub-ADNI001/ses-M00/t1-linear/sub-CONTADNI001_/data/caps/subjects/sub-ADNI001/ses-M00_T1w.nii.gz")
        (Pathlib.parse "/data/out/subjects/sub-CONTADNI001") ∧
    ¬ lies_under
        (Pathlib.parse
           "/data/caps/subjects/sub-ADNI001/ses-M00/t1-linear/sub-CONTADNI001_/data/caps/subjects/sub-ADNI001/ses-M00_T1w.nii.gz")
        (output_dir (Demo.args "absolute.tsv" default_gamma 2)).
Proof.
  eexists _, _. split; [reflexivity|]. split; [vm_compute; reflexivity|].
  split; intros [_ [k Hk]]; vm_compute in Hk; discriminate.
Qed.

(** ** Everything a run writes *)

(** C6. A run that goes through has written the JSON record of its
    parameters, the [subjects] directory with, for every row, the directory
    and the transformed image of the row, the manifest [data.tsv] with tabs
    as separators, and the report of missing modalities. *)
Theorem run_writes_all_outputs (W : World) (a : Args) tr df :
  generate_contrast_dataset_outputs W a = (tr, inr df) →
  ∃ caps_dict data_df file_type,
    create_caps_dict W (caps_directory a) (multi_cohort a) = inr caps_dict ∧
    load_and_check_tsv W (tsv_path a) caps_dict (output_dir a) = inr data_df ∧
    EJson (invocation_record a) ∈ trace (generate_contrast_dataset W a) ∧
    EMkdir (output_dir a </> "subjects") ∈ trace (generate_contrast_dataset W a) ∧
    (∀ i r, data_df !! i = Some r →
       ∃ first img,
         processed W a caps_dict file_type i r first img ∧
         EMkdir (image_dir a r) ∈ trace (generate_contrast_dataset W a) ∧
         ESave (image_file a r first) img ∈ trace (generate_contrast_dataset W a)) ∧
    EToCsv (output_dir a </> "data.tsv") tab df ∈ trace (generate_contrast_dataset W a) ∧
    EMissingMods (output_dir a) df ∈ trace (generate_contrast_dataset W a).
Proof.
  intros H. rewrite (run_after_outputs W a _ _ H).
  apply outputs_returns in H
    as (caps_dict & data_df & ft & ts & Hcaps & Hdata & _ & _ & _ & Hrows & _ & ->).
  exists caps_dict, data_df, ft. unfold trace; simpl.
  split; [done|]. split; [done|].
  split; [by rewrite !elem_of_cons; left|].
  split; [by rewrite !elem_of_cons; right; left|].
  split.
  - intros i r Hr. destruct (Hrows i r Hr) as (first & img & Hp & Hti).
    exists first, img. split; [done|].
    split; apply (elem_of_job_trace a r first img ts _ i [_; _] [_; _]); try done;
      unfold job_trace; rewrite !elem_of_cons; eauto.
  - split; rewrite !elem_of_cons, !elem_of_app, !elem_of_cons; eauto 10.
Qed.

Lemma run_writes_all_outputs_witness :
  ∃ caps_dict data_df file_type,
    create_caps_dict Demo.world Demo.caps false = inr caps_dict ∧
    load_and_check_tsv Demo.world (Some "two.tsv") caps_dict Demo.out = inr data_df ∧
    EJson (invocation_record (Demo.args "two.tsv" default_gamma 2))
      ∈ trace (generate_contrast_dataset Demo.world (Demo.args "two.tsv" default_gamma 2)) ∧
    EMkdir (Demo.out </> "subjects")
      ∈ trace (generate_contrast_dataset Demo.world (Demo.args "two.tsv" default_gamma 2)) ∧
    (∀ i r, data_df !! i = Some r →
       ∃ first img,
         processed Demo.world (Demo.args "two.tsv" default_gamma 2) caps_dict
           file_type i r first img ∧
         EMkdir (image_dir (Demo.args "two.tsv" default_gamma 2) r)
           ∈ trace (generate_contrast_dataset Demo.world (Demo.args "two.tsv" default_gamma 2)) ∧
         ESave (image_file (Demo.args "two.tsv" default_gamma 2) r first) img
           ∈ trace (generate_contrast_dataset Demo.world (Demo.args "two.tsv" default_gamma 2))) ∧
    EToCsv (Demo.out </> "data.tsv") tab (manifest_of data_df)
      ∈ trace (generate_contrast_dataset Demo.world (Demo.args "two.tsv" default_gamma 2)) ∧
    EMissingMods Demo.out (manifest_of data_df)
      ∈ trace (generate_contrast_dataset Demo.world (Demo.args "two.tsv" default_gamma 2)).
Proof.
  destruct (generate_contrast_dataset_outputs Demo.world
              (Demo.args "two.tsv" default_gamma 2)) as [tr [e|df]] eqn:H;
    [by vm_compute in H|].
  pose proof (outputs_returns _ _ _ _ H)
    as (cd & dd & _ & _ & Hcd & Hdd & _ & _ & _ & _ & -> & _).
  destruct (run_writes_all_outputs Demo.world _ tr _ H)
    as (caps_dict & data_df & file_type & Hcaps & Hdata & Hrest).
  assert (cd = caps_dict) as -> by congruence.
  assert (dd = data_df) as -> by congruence.
  by exists caps_dict, data_df, file_type.
Defined.

(** ** Inside [output_dir] *)

Section Frame.

Context (W : World) (a : Args).

Hypothesis preprocessing_relative : Str.startswith "/" (preprocessing a) = false.

Hypothesis preprocessing_stays : climbs (preprocessing a) = false.




End Frame.



(** ** Failures *)

Section Failures.

Context (W : World) (a : Args).

Lemma emit_ok ev : fs_ok W ev = inr tt → emit W ev = ([ev], inr tt).
Proof. unfold emit. by intros ->. Qed.

Lemma bind_lift_inr {A B} (x : A) (k : A → M W B) : lift (inr x) ≫= k = k x.
Proof. unfold lift, mbind, M_bind, bind. by destruct (k x). Qed.

Lemma bind_emit_ok {B} ev (k : unit → M W B) :
  fs_ok W ev = inr tt →
  emit W ev ≫= k = (ev :: trace (k tt), outcome (k tt)).
Proof. intros H. rewrite (emit_ok _ H). unfold mbind, M_bind, bind. by destruct (k tt). Qed.

(** The steps of a job that can raise: the lookup of the file, the
    construction and the application of the transform (which loads the
    image), and the writing of the image. Each ends the job with the
    exception it raises. *)
Lemma job_step_failures data_df caps_dict file_type i r caps found first subject_id e :
  data_df !! i = Some r →
  caps_dict !! cohort r = Some caps →
  (clinica_file_reader W [participant_id r] [session_id r] caps file_type = inl e →
   job W a data_df caps_dict file_type i = ([], inl e)) ∧
  (clinica_file_reader W [participant_id r] [session_id r] caps file_type = inr found →
   fst found !! 0%nat = Some first →
   Str.split "-" (participant_id r) !! 1%nat = Some subject_id →
   fs_ok W (EMkdir (image_dir a r)) = inr tt →
   ∀ g0 g1, gamma a !! 0%nat = Some g0 → gamma a !! 1%nat = Some g1 →
   (RandomGamma W g0 g1 = inl e →
    job W a data_df caps_dict file_type i = ([EMkdir (image_dir a r)], inl e)) ∧
   ∀ contrast, RandomGamma W g0 g1 = inr contrast →
   (apply_transform W i contrast (ScalarImage W (Pathlib.parse first)) = inl e →
    job W a data_df caps_dict file_type i = ([EMkdir (image_dir a r)], inl e)) ∧
   ∀ img, apply_transform W i contrast (ScalarImage W (Pathlib.parse first)) = inr img →
   fs_ok W (ESave (image_file a r first) img) = inl e →
   job W a data_df caps_dict file_type i = ([EMkdir (image_dir a r)], inl e)).
Proof.
  intros Hr Hcaps.
  assert (Hdir : ∀ sid, Str.split "-" (participant_id r) !! 1%nat = Some sid →
            image_dir a r
            = output_dir a </> "subjects" </> ("sub-CONT" +:+ sid)
                </> session_id r </> preprocessing a).
  { intros sid Hsid. unfold image_dir, subject_id_of, field. by rewrite Hsid. }
  assert (Hfile : ∀ sid, Str.split "-" (participant_id r) !! 1%nat = Some sid →
            image_file a r first
            = output_dir a </> "subjects" </> ("sub-CONT" +:+ sid)
                </> session_id r </> preprocessing a
                </> ("sub-CONT" +:+ sid +:+ "_" +:+ session_id r +:+ "_"
                       +:+ Str.join "_"
                             (drop 2 (Str.split "_" (Pathlib.name (Pathlib.parse first)))))).
  { intros sid Hsid. unfold image_file, image_filename. rewrite (Hdir sid Hsid).
    unfold subject_id_of, field. by rewrite Hsid. }
  unfold job, create_contrast_image, loc, getitem.
  rewrite Hr, bind_lift_inr. cbv beta zeta. rewrite Hcaps, bind_lift_inr. split.
  { by intros ->. }
  intros -> Hfirst Hid Hmk g0 g1 Hg0 Hg1. rewrite bind_lift_inr.
  rewrite (Hdir _ Hid) in *. rewrite (Hfile _ Hid).
  unfold index. rewrite Hfirst, bind_lift_inr, Hid, bind_lift_inr.
  unfold mkdir, save.
  rewrite (bind_emit_ok _ _ Hmk), Hg0, bind_lift_inr, Hg1, bind_lift_inr.
  split; [by intros ->|]. intros contrast ->. rewrite bind_lift_inr.
  split; [by intros ->|]. intros img ->. rewrite bind_lift_inr.
  intros Hsave. unfold emit. by rewrite Hsave.
Qed.

(** C4. When the job of a row raises, whatever the step that raises, the
    exception of a job that raised leaves [generate_contrast_dataset] as it
    is, and neither the manifest [data.tsv] nor the report has been
    written. *)
Theorem job_failure_is_fatal caps_dict data_df file_type i t e :
  fs_ok W (EJson (invocation_record a)) = inr tt →
  create_caps_dict W (caps_directory a) (multi_cohort a) = inr caps_dict →
  load_and_check_tsv W (tsv_path a) caps_dict (output_dir a) = inr data_df →
  fs_ok W (EMkdir (output_dir a </> "subjects")) = inr tt →
  find_file_type W (preprocessing a) (uncropped_image a) (tracer a)
    (suvr_reference_region a) = inr file_type →
  n_proc a ≠ 0 →
  (i < length data_df)%nat →
  job W a data_df caps_dict file_type i = (t, inl e) →
  ∃ j tj ej,
    (j < length data_df)%nat ∧
    job W a data_df caps_dict file_type j = (tj, inl ej) ∧
    outcome (generate_contrast_dataset W a) = inl ej ∧
    Forall (fun ev => is_manifest_write ev = false)
      (trace (generate_contrast_dataset W a)).
Proof.
  intros Hjson Hcaps Hdata Hsubjects Hft Hn Hi Hjob.
  pose proof (jobs_lookup W a data_df caps_dict file_type i Hi) as Hlookup.
  rewrite Hjob in Hlookup.
  destruct (Parallel_fail (n_proc a) _ _ _ _ Hn Hlookup)
    as (j & tj & ej & tjobs & Hj & Hrun).
  assert (Hlt : (j < length data_df)%nat).
  { apply lookup_lt_Some in Hj. by rewrite length_map, length_seq in Hj. }
  assert (Hjj : job W a data_df caps_dict file_type j = (tj, inl ej)).
  { enough (Hsome : Some (job W a data_df caps_dict file_type j) = Some (tj, inl ej))
      by (by injection Hsome).
    etrans; [|exact Hj]. symmetry. by apply jobs_lookup. }
  exists j, tj, ej. split; [done|]. split; [done|].
  assert (Hout : ∃ tr, generate_contrast_dataset_outputs W a = (tr, inl ej)).
  { unfold generate_contrast_dataset_outputs. eexists.
    eapply bind_ok; [exact (emit_ok _ Hjson)|]. rewrite Hcaps.
    eapply bind_ok; [reflexivity|]. rewrite Hdata.
    eapply bind_ok; [reflexivity|].
    eapply bind_ok; [exact (emit_ok _ Hsubjects)|]. rewrite Hft.
    eapply bind_ok; [reflexivity|].
    eapply bind_fail. exact Hrun. }
  destruct Hout as [tr Hout]. split.
  { by rewrite (run_failure W a _ _ Hout). }
  rewrite run_trace. apply Forall_forall. intros ev Hev.
  destruct (is_manifest_write ev) eqn:Hw; [exfalso|done].
  apply manifest_write_inv in Hev as (cd & dd & Hcd & Hdd & Hreturn & _); [|done].
  rewrite Hcaps in Hcd. injection Hcd as <-.
  rewrite Hdata in Hdd. injection Hdd as <-.
  destruct (Hreturn file_type i Hft Hi) as (t' & df' & Hok). congruence.
Qed.

End Failures.

Lemma job_failure_is_fatal_witness :
  ∃ j tj ej,
    (j < 2)%nat ∧
    job Demo.world (Demo.args "broken.tsv" default_gamma 2)
      [mkInRow "sub-ADNI001" "ses-M00" "single"; mkInRow "ADNI002" "ses-M00" "single"]
      {[ "single" := Demo.caps ]} "T1w.nii.gz" j = (tj, inl ej) ∧
    outcome (generate_contrast_dataset Demo.world (Demo.args "broken.tsv" default_gamma 2))
    = inl ej ∧
    Forall (fun ev => is_manifest_write ev = false)
      (trace (generate_contrast_dataset Demo.world (Demo.args "broken.tsv" default_gamma 2))).
Proof.
  apply (job_failure_is_fatal Demo.world (Demo.args "broken.tsv" default_gamma 2)
           {[ "single" := Demo.caps ]}
           [mkInRow "sub-ADNI001" "ses-M00" "single"; mkInRow "ADNI002" "ses-M00" "single"]
           "T1w.nii.gz" 1%nat [] IndexError);
    try reflexivity; try done.
  simpl; lia.
Defined.

(** ** The option [--gamma] *)

Section Gamma.

Context (W : World).

Lemma convert_floats_inr values g :
  convert_floats W values = inr g →
  Forall2 (fun v f => python_float W v = Some f) values g.
Proof.
  revert g. induction values as [|v vs IH]; simpl; intros g H.
  - injection H as <-. constructor.
  - destruct (python_float W v) as [f|] eqn:Hf; [|discriminate].
    destruct (convert_floats W vs) as [e|fs]; [discriminate|].
    injection H as <-. constructor; [done|]. by apply IH.
Qed.

Lemma convert_floats_inl values v :
  v ∈ values → python_float W v = None →
  ∃ v', convert_floats W values = inl (BadParameter v').
Proof.
  intros Hin Hv. induction Hin as [v vs|v v0 vs _ IH]; simpl.
  - rewrite Hv. by exists v.
  - destruct (python_float W v0); [|by exists v0].
    destruct (IH Hv) as [v' ->]. by exists v'.
Qed.

(** C3, as the code has it. With no [--gamma] the range is the default
    [(-0.2, -0.05)], which lies between -1 and 1. Every value given for
    [--gamma] is converted with [float]: when one of them is not a float the
    command is rejected before anything is written; otherwise the floats are
    handed to [generate_contrast_dataset] as they are, and every job builds
    its transform from [gamma[0]] and [gamma[1]]. *)
Theorem gamma_is_converted_and_passed_on :
  gamma_option W [] = inr default_gamma ∧
  Forall (fun g => gamma_in_range g = true) default_gamma ∧
  (∀ occurrences g,
     occurrences ≠ [] → gamma_option W occurrences = inr g →
     Forall2 (fun v f => python_float W v = Some f) occurrences g) ∧
  (∀ c v,
     v ∈ cli_gamma c → python_float W v = None →
     ∃ v', cli W c = ([], inl (BadParameter v'))) ∧
  (∀ c g,
     gamma_option W (cli_gamma c) = inr g →
     cli W c = generate_contrast_dataset W (cli_call c g)) ∧
  (∀ a data_df caps_dict file_type i t df,
     job W a data_df caps_dict file_type i = (t, inr df) →
     ∃ g0 g1 contrast,
       gamma a !! 0%nat = Some g0 ∧ gamma a !! 1%nat = Some g1 ∧
       RandomGamma W g0 g1 = inr contrast).
Proof.
  split; [reflexivity|]. split; [by repeat constructor|].
  split; [|split; [|split]].
  - intros occurrences g Hne H. destruct occurrences as [|v vs]; [done|].
    by apply convert_floats_inr.
  - intros c v Hin Hv. unfold cli, gamma_option.
    destruct (cli_gamma c) as [|v0 vs] eqn:Hg; [by apply elem_of_nil in Hin|].
    destruct (convert_floats_inl _ _ Hin Hv) as [v' ->]. by exists v'.
  - intros c g H. unfold cli. rewrite H.
    destruct (generate_contrast_dataset W (cli_call c g)) as [tr r] eqn:Hrun.
    unfold lift, mbind, M_bind, bind. by rewrite Hrun.
  - intros a data_df caps_dict file_type i t df H.
    apply job_returns in H as (r & first & img & _ & Hp & _).
    destruct Hp as (caps & found & g0 & g1 & contrast & _ & _ & _ & _ & H0 & H1 & Hg & _).
    by exists g0, g1, contrast.
Qed.

End Gamma.

Lemma gamma_is_converted_and_passed_on_witness :
  Forall2 (fun v f => python_float Demo.world v = Some f)
    ["-0.2"; "0.5"] [(-0.2)%float; 0.5%float].
Proof.
  apply (proj1 (proj2 (proj2 (gamma_is_converted_and_passed_on Demo.world)))).
  - done.
  - reflexivity.
Defined.

(** C3, as it is written, fails: three values are accepted as well as two,
    and a pair outside the range between -1 and 1 reaches the transform;
    the images are processed with it. *)
Lemma out_of_range_gamma_is_accepted :
  gamma_option Demo.world ["5"; "7"; "9"] = inr [5%float; 7%float; 9%float] ∧
  gamma_option Demo.world ["5"; "7"] = inr [5%float; 7%float] ∧
  gamma_in_range 5 = false ∧
  gamma_in_range 7 = false ∧
  RandomGamma Demo.world 5 7 = inr (5%float, 7%float) ∧
  outcome (cli Demo.world (Demo.cli_args "two.tsv" ["5"; "7"]))
  = inl (NameError "logger") ∧
  List.map (fun ev => Pathlib.to_string <$> written_path ev)
    (trace (cli Demo.world (Demo.cli_args "two.tsv" ["5"; "7"])))
  = [None;
     Some "/data/out/subjects";
     Some "/data/out/subjects/sub-CONTOAS42/ses-M06/t1-linear";
     Some "/data/out/subjects/sub-CONTOAS42/ses-M06/t1-linear/sub-CONTOAS42_ses-M06_T1w.nii.gz";
     Some "/data/out/subjects/sub-CONTADNI001/ses-M00/t1-linear";
     Some "/data/out/subjects/sub-CONTADNI001/ses-M00/t1-linear/sub-CONTADNI001_ses-M00_T1w.nii.gz";
     Some "/data/out/data.tsv";
     Some "/data/out"].
Proof. repeat split; vm_compute; reflexivity. Qed.

(** ** Workers *)

Section Workers.

Context (W : World) (a : Args).

Lemma bind_cases {A B} (m : M W A) (k : A → M W B) t r :
  m ≫= k = (t, r) →
  (∃ e, m = (t, inl e) ∧ r = inl e) ∨
  (∃ t1 x t2, m = (t1, inr x) ∧ k x = (t2, r) ∧ t = t1 ++ t2).
Proof.
  unfold mbind, M_bind, bind. destruct m as [t1 [e|x]].
  - intros [= <- <-]. left. by exists e.
  - destruct (k x) as [t2 r2] eqn:Hk. intros [= <- <-]. right. by exists t1, x, t2.
Qed.

Lemma bind_emit_cases {B} ev (k : unit → M W B) t r :
  emit W ev ≫= k = (t, r) →
  t = [] ∧ (∃ e, r = inl e) ∨ ∃ t2, k tt = (t2, r) ∧ t = ev :: t2.
Proof.
  intros [(e & H & ->)|(t1 & [] & t2 & H & Hk & ->)]%bind_cases;
    unfold emit in H; destruct (fs_ok W ev) as [e'|[]]; simplify_eq; eauto.
Qed.

Lemma bind_lift_cases {A B} (x : Exc A) (k : A → M W B) t r :
  lift x ≫= k = (t, r) →
  t = [] ∧ (∃ e, r = inl e) ∨ ∃ v, x = inr v ∧ k v = (t, r).
Proof.
  intros [(e & H & ->)|(t1 & v & t2 & H & Hk & ->)]%bind_cases;
    unfold lift in H; simplify_eq; eauto.
Qed.

(** The shape of a trace that holds the manifest: the record and the
    [subjects] directory, the writes of all the jobs, the manifest, and
    the report when it could be written. *)
Lemma trace_with_manifest file sep df :
  EToCsv file sep df ∈ trace (generate_contrast_dataset_outputs W a) →
  ∃ caps_dict data_df file_type ts tail,
    create_caps_dict W (caps_directory a) (multi_cohort a) = inr caps_dict ∧
    load_and_check_tsv W (tsv_path a) caps_dict (output_dir a) = inr data_df ∧
    find_file_type W (preprocessing a) (uncropped_image a) (tracer a)
      (suvr_reference_region a) = inr file_type ∧
    Forall3 (fun task ti x => task = (ti, inr x))
      (List.map (job W a data_df caps_dict file_type) (seq 0 (length data_df)))
      ts (List.map (fun r => Pandas.of_rows [r] columns) (List.map manifest_row data_df)) ∧
    (tail = [] ∨ tail = [EMissingMods (output_dir a) (manifest_of data_df)]) ∧
    Forall (fun ev => is_manifest_write ev = false)
      (List.concat (shuffle (schedule W (n_proc a) (length data_df)) ts)) ∧
    EToCsv (Image:=Image W) file sep df
    = EToCsv (output_dir a </> "data.tsv") tab (manifest_of data_df) ∧
    trace (generate_contrast_dataset_outputs W a)
    = [EJson (invocation_record a); EMkdir (output_dir a </> "subjects")]
      ++ List.concat (shuffle (schedule W (n_proc a) (length data_df)) ts)
      ++ EToCsv (output_dir a </> "data.tsv") tab (manifest_of data_df) :: tail.
Proof.
  destruct (generate_contrast_dataset_outputs W a) as [tr r] eqn:Hrun.
  unfold trace; simpl. intros Hin.
  assert (Hno : ∀ t : list (Event (Image W)),
            Forall (fun ev => is_manifest_write ev = false) t →
            EToCsv file sep df ∈ t → False).
  { intros t Ht Hev. rewrite Forall_forall in Ht. by specialize (Ht _ Hev). }
  unfold generate_contrast_dataset_outputs in Hrun.
  apply bind_emit_cases in Hrun as [[-> _]|(? & Hrun & ->)].
  { by apply elem_of_nil in Hin. }
  apply bind_lift_cases in Hrun as [[-> _]|(caps_dict & Hcaps & Hrun)].
  { exfalso. eapply Hno; [|exact Hin]. by repeat constructor. }
  apply bind_lift_cases in Hrun as [[-> _]|(data_df & Hdata & Hrun)].
  { exfalso. eapply Hno; [|exact Hin]. by repeat constructor. }
  apply bind_emit_cases in Hrun as [[-> _]|(? & Hrun & ->)].
  { exfalso. eapply Hno; [|exact Hin]. by repeat constructor. }
  apply bind_lift_cases in Hrun as [[-> _]|(file_type & Hft & Hrun)].
  { exfalso. eapply Hno; [|exact Hin]. by repeat constructor. }
  assert (Hjobs : ∀ (t : list (Event (Image W))) (r : Exc (list DataFrame)),
            Parallel (n_proc a)
              (List.map (job W a data_df caps_dict file_type) (seq 0 (length data_df)))
            = (t, r) →
            Forall (fun ev => is_manifest_write ev = false) t).
  { intros t r0 Ht.
    change t with (trace (t, r0)). rewrite <- Ht.
    apply all_events_Parallel, Forall_forall.
    intros task (i & -> & _)%list_elem_of_fmap. apply job_writes_no_manifest. }
  apply bind_cases in Hrun as [(e & Hpar & _)|(tjobs & results & ? & Hpar & Hrun & ->)].
  { exfalso. eapply Hno; [|exact Hin].
    repeat (constructor; [done|]). exact (Hjobs _ _ Hpar). }
  pose proof (Hjobs _ _ Hpar) as Hquiet.
  apply Parallel_inr in Hpar as (_ & ts & Hall & ->).
  rewrite length_map, length_seq in Hin, Hquiet |- *.
  pose proof (jobs_return W a _ _ _ _ _ Hall) as (-> & _ & _).
  rewrite gather_manifest in Hrun.
  exists caps_dict, data_df, file_type, ts.
  apply bind_emit_cases in Hrun as [[-> _]|(? & Hrun & ->)].
  { exfalso. eapply Hno; [|exact Hin]. rewrite app_nil_r.
    by repeat (constructor; [done|]). }
  assert (Hsame : ∀ tail,
            tail = [] ∨ tail = [EMissingMods (output_dir a) (manifest_of data_df)] →
            EToCsv file sep df
              ∈ EJson (invocation_record a) :: EMkdir (output_dir a </> "subjects")
                :: List.concat (shuffle (schedule W (n_proc a) (length data_df)) ts)
                ++ EToCsv (output_dir a </> "data.tsv") tab (manifest_of data_df) :: tail →
            EToCsv (Image:=Image W) file sep df
            = EToCsv (output_dir a </> "data.tsv") tab (manifest_of data_df)).
  { intros tail Htail. rewrite !elem_of_cons, elem_of_app, elem_of_cons.
    intros [[=]|[[=]|[Hjob|[Heq|Htl]]]]; [|done|].
    - exfalso. by eapply Hno.
    - destruct Htail as [-> | ->]; [by apply elem_of_nil in Htl|].
      by apply list_elem_of_singleton in Htl. }
  apply bind_emit_cases in Hrun as [[-> _]|(? & Hrun & ->)].
  - exists []. repeat split; try done; eauto.
  - injection Hrun as <- _.
    exists [EMissingMods (output_dir a) (manifest_of data_df)].
    repeat split; try done; eauto.
Qed.

(** A list is cut in one way only at its only element of a kind. *)
Lemma cut_unique {B} (P : B → bool) (l1 l2 l1' l2' : list B) x x' :
  Forall (fun y => P y = false) l1 → P x = true →
  Forall (fun y => P y = false) l2 → P x' = true →
  l1 ++ x :: l2 = l1' ++ x' :: l2' → l1 = l1' ∧ x = x' ∧ l2 = l2'.
Proof.
  intros H1 Hx H2 Hx'. revert l1'.
  induction H1 as [|y l1 Hy _ IH]; intros [|y' l1'] Heq; simpl in Heq.
  - by injection Heq as -> ->.
  - injection Heq as -> ->. exfalso.
    rewrite Forall_forall in H2.
    assert (P x' = false) by (apply H2; set_solver). congruence.
  - injection Heq as -> _. congruence.
  - injection Heq as -> Heq. by destruct (IH _ Heq) as (-> & -> & ->).
Qed.

End Workers.

(** C5. The jobs are the same whatever the number of workers and the
    order in which the workers get through them; two runs that differ in
    these only and that write a manifest write the same manifest; and when
    the manifest is written every job has returned and has written
    everything it writes. *)
Theorem manifest_does_not_depend_on_workers (W : World) (a : Args) s1 s2 n1 n2 :
  (∀ data_df caps_dict file_type i,
     job (with_schedule W s1) (with_n_proc a n1) data_df caps_dict file_type i
     = job (with_schedule W s2) (with_n_proc a n2) data_df caps_dict file_type i) ∧
  (∀ file1 sep1 df1 file2 sep2 df2,
     EToCsv file1 sep1 df1
       ∈ trace (generate_contrast_dataset (with_schedule W s1) (with_n_proc a n1)) →
     EToCsv file2 sep2 df2
       ∈ trace (generate_contrast_dataset (with_schedule W s2) (with_n_proc a n2)) →
     file1 = file2 ∧ sep1 = sep2 ∧ df1 = df2) ∧
  (∀ before file sep df after,
     trace (generate_contrast_dataset W a) = before ++ EToCsv file sep df :: after →
     Forall (fun ev => is_job_write ev = false) after ∧
     ∃ caps_dict data_df file_type,
       create_caps_dict W (caps_directory a) (multi_cohort a) = inr caps_dict ∧
       load_and_check_tsv W (tsv_path a) caps_dict (output_dir a) = inr data_df ∧
       find_file_type W (preprocessing a) (uncropped_image a) (tracer a)
         (suvr_reference_region a) = inr file_type ∧
       ∀ i, (i < length data_df)%nat →
         ∃ t df',
           job W a data_df caps_dict file_type i = (t, inr df') ∧
           Forall (fun ev => ev ∈ before) t).
Proof.
  split; [reflexivity|]. split.
  - intros file1 sep1 df1 file2 sep2 df2. rewrite !run_trace. intros H1 H2.
    apply trace_with_manifest in H1
      as (cd1 & dd1 & _ & _ & _ & Hcd1 & Hdd1 & _ & _ & _ & _ & Heq1 & _).
    apply trace_with_manifest in H2
      as (cd2 & dd2 & _ & _ & _ & Hcd2 & Hdd2 & _ & _ & _ & _ & Heq2 & _).
    simpl in Hcd1, Hcd2, Hdd1, Hdd2, Heq1, Heq2.
    rewrite Hcd1 in Hcd2. injection Hcd2 as <-.
    rewrite Hdd1 in Hdd2. injection Hdd2 as <-.
    injection Heq1 as -> -> ->. by injection Heq2 as -> -> ->.
  - intros before file sep df after. rewrite run_trace. intros Htrace.
    assert (Hin : EToCsv file sep df ∈ trace (generate_contrast_dataset_outputs W a)).
    { rewrite Htrace. set_solver. }
    apply trace_with_manifest in Hin
      as (caps_dict & data_df & file_type & ts & tail & Hcaps & Hdata & Hft
          & Hall & Htail & Hjobs & Heq & Hshape).
    rewrite Htrace in Hshape. rewrite app_assoc in Hshape.
    assert (Hquiet : Forall (fun ev : Event (Image W) => is_to_csv ev = false)
              ([EJson (invocation_record a); EMkdir (output_dir a </> "subjects")]
                 ++ List.concat (shuffle (schedule W (n_proc a) (length data_df)) ts))).
    { apply Forall_app. split; [by repeat constructor|].
      eapply Forall_impl; [exact Hjobs|]. by intros []. }
    assert (Htailq : Forall (fun ev : Event (Image W) => is_to_csv ev = false) tail).
    { destruct Htail as [->| ->]; by repeat constructor. }
    symmetry in Hshape.
    apply (cut_unique is_to_csv) in Hshape as (<- & _ & <-); try done.
    split.
    { destruct Htail as [->| ->]; by repeat constructor. }
    exists caps_dict, data_df, file_type. repeat split; try done.
    intros i Hi.
    pose proof (Forall3_length_lm _ _ _ _ Hall) as Hlen_ts.
    pose proof (Forall3_length_lr _ _ _ _ Hall) as Hlen_res.
    rewrite length_map, length_seq in Hlen_ts, Hlen_res.
    destruct (lookup_lt_is_Some_2 ts i) as [ti Hti]; [lia|].
    destruct (lookup_lt_is_Some_2
                (List.map (fun r => Pandas.of_rows [r] columns)
                   (List.map manifest_row data_df)) i) as [res Hres]; [lia|].
    exists ti, res. split.
    + exact (Forall3_lookup_lmr _ _ _ _ _ _ _ _ Hall
               (jobs_lookup W a data_df caps_dict file_type i Hi) Hti Hres).
    + apply Forall_forall. intros ev Hev. rewrite !elem_of_app. right.
      eapply elem_of_concat; [|exact Hev].
      rewrite shuffle_Permutation. by eapply list_elem_of_lookup_2.
Qed.


Lemma manifest_does_not_depend_on_workers_witness :
  ∃ df1 df2,
    EToCsv (Demo.out </> "data.tsv") tab df1
      ∈ trace (generate_contrast_dataset
                 (with_schedule Demo.world (fun _ _ => []))
                 (with_n_proc (Demo.args "three.tsv" default_gamma 2) 1)) ∧
    EToCsv (Demo.out </> "data.tsv") tab df2
      ∈ trace (generate_contrast_dataset
                 (with_schedule Demo.world (fun _ _ => [2%nat; 1%nat]))
                 (with_n_proc (Demo.args "three.tsv" default_gamma 2) 4)) ∧
    List.map written_path
      (trace (generate_contrast_dataset
                (with_schedule Demo.world (fun _ _ => []))
                (with_n_proc (Demo.args "three.tsv" default_gamma 2) 1)))
    ≠ List.map written_path
        (trace (generate_contrast_dataset
                  (with_schedule Demo.world (fun _ _ => [2%nat; 1%nat]))
                  (with_n_proc (Demo.args "three.tsv" default_gamma 2) 4))) ∧
    df1 = df2.
Proof.
  pose (D := Pandas.of_rows
               [[Some "sub-CONTC"; Some "ses-M00"; Some "contrast"];
                [Some "sub-CONTB"; Some "ses-M00"; Some "contrast"];
                [Some "sub-CONTA"; Some "ses-M00"; Some "contrast"]] columns).
  assert (H1 : EToCsv (Demo.out </> "data.tsv") tab D
                 ∈ trace (generate_contrast_dataset
                            (with_schedule Demo.world (fun _ _ => []))
                            (with_n_proc (Demo.args "three.tsv" default_gamma 2) 1))).
  { vm_compute. in_list. }
  assert (H2 : EToCsv (Demo.out </> "data.tsv") tab D
                 ∈ trace (generate_contrast_dataset
                            (with_schedule Demo.world (fun _ _ => [2%nat; 1%nat]))
                            (with_n_proc (Demo.args "three.tsv" default_gamma 2) 4))).
  { vm_compute. in_list. }
  exists D, D. split; [exact H1|]. split; [exact H2|]. split; [by vm_compute|].
  exact (proj2 (proj2 (proj1 (proj2
           (manifest_does_not_depend_on_workers Demo.world
              (Demo.args "three.tsv" default_gamma 2)
              (fun _ _ => []) (fun _ _ => [2%nat; 1%nat]) 1 4))
           _ _ _ _ _ _ H1 H2))).
Defined.

(** * Further properties of the code *)

(** ** The suffix of the file name *)

(** X1. The suffix [filename_pattern] of line 96 is what follows the first
    two fields of the input file name: for a name [p_q_rest] whose first two
    fields are [p] and [q] it is [rest], and for a name with fewer than two
    underscores it is empty. *)
Theorem suffix_of_input_filename :
  (∀ p q rest,
     Str.count "_" p = 0%nat → Str.count "_" q = 0%nat →
     drop_two_fields (p +:+ "_" +:+ q +:+ "_" +:+ rest) = rest) ∧
  (∀ s, (Str.count "_" s < 2)%nat → drop_two_fields s = "").
Proof.
  split.
  - intros p q rest Hp Hq. unfold drop_two_fields.
    change (p +:+ "_" +:+ q +:+ "_" +:+ rest)
      with (p +:+ String "_" (q +:+ String "_" rest)).
    rewrite (split_app _ _ _ Hp), (split_app _ _ _ Hq). simpl.
    apply (join_split "_").
  - intros s Hs. unfold drop_two_fields.
    pose proof (split_length "_" s) as Hlen.
    destruct (Str.split "_" s) as [|f0 [|f1 [|f2 fs]]]; simpl in *; try done. lia.
Qed.

Lemma suffix_of_input_filename_witness :
  drop_two_fields "sub-ADNI001_ses-M00_space-MNI_T1w.nii.gz" = "space-MNI_T1w.nii.gz" ∧
  drop_two_fields "scan_T1w.nii.gz" = "".
Proof.
  split.
  - apply (proj1 suffix_of_input_filename "sub-ADNI001" "ses-M00" "space-MNI_T1w.nii.gz");
      reflexivity.
  - apply (proj2 suffix_of_input_filename). simpl. lia.
Defined.

(** ** The name of the file that is saved *)

Lemma image_filename_plain r first :
  Str.count "/" (subject_id_of r) = 0%nat →
  Str.count "/" (session_id r) = 0%nat →
  Str.count "/" (image_filename r (Pathlib.name (Pathlib.parse first))) = 0%nat.
Proof.
  intros Hid Hses. unfold image_filename, drop_two_fields.
  rewrite !count_app, Hid, Hses. simpl.
  rewrite count_join; [done|done|].
  apply Forall_drop, split_fields_other, name_no_slash.
Qed.

(** X2. When neither the session nor the subject field of a row holds a
    slash, the image of the row is saved in the directory of the row under
    the very name [contrast_image_nii_filename]. *)
Theorem saved_file_name (W : World) (a : Args) data_df caps_dict file_type i r t df :
  job W a data_df caps_dict file_type i = (t, inr df) →
  data_df !! i = Some r →
  Str.count "/" (subject_id_of r) = 0%nat →
  Str.count "/" (session_id r) = 0%nat →
  ∃ first img,
    processed W a caps_dict file_type i r first img ∧
    t = [EMkdir (image_dir a r); ESave (image_file a r first) img] ∧
    parts (image_file a r first)
    = parts (image_dir a r)
      ++ ["sub-CONT" +:+ subject_id_of r +:+ "_" +:+ session_id r +:+ "_"
            +:+ drop_two_fields (Pathlib.name (Pathlib.parse first))] ∧
    Pathlib.name (image_file a r first)
    = "sub-CONT" +:+ subject_id_of r +:+ "_" +:+ session_id r +:+ "_"
        +:+ drop_two_fields (Pathlib.name (Pathlib.parse first)).
Proof.
  intros Hjob Hr Hid Hses.
  apply job_returns in Hjob as (r' & first & img & Hr' & Hp & -> & _).
  rewrite Hr in Hr'. injection Hr' as <-.
  exists first, img. split; [done|]. split; [done|].
  pose proof (image_filename_plain r first Hid Hses) as Hplain.
  split.
  - unfold image_file.
    rewrite (join_relative _ _ (startswith_plain _ Hplain)). simpl.
    by rewrite (components_plain _ Hplain).
  - unfold image_file. by apply name_join.
Qed.

Lemma saved_file_name_witness :
  ∃ first img,
    processed Demo.world (Demo.args "two.tsv" default_gamma 2)
      {[ "single" := Demo.caps ]} "T1w.nii.gz" 1
      (mkInRow "sub-OAS42" "ses-M06" "single") first img ∧
    job Demo.world (Demo.args "two.tsv" default_gamma 2)
      [mkInRow "sub-ADNI001" "ses-M00" "single"; mkInRow "sub-OAS42" "ses-M06" "single"]
      {[ "single" := Demo.caps ]} "T1w.nii.gz" 1
    = ([EMkdir (image_dir (Demo.args "two.tsv" default_gamma 2)
                  (mkInRow "sub-OAS42" "ses-M06" "single"));
        ESave (image_file (Demo.args "two.tsv" default_gamma 2)
                 (mkInRow "sub-OAS42" "ses-M06" "single") first) img],
       inr (Pandas.of_rows [manifest_row (mkInRow "sub-OAS42" "ses-M06" "single")] columns)) ∧
    Pathlib.name
      (image_file (Demo.args "two.tsv" default_gamma 2)
         (mkInRow "sub-OAS42" "ses-M06" "single") first)
    = "sub-CONT" +:+ "OAS42" +:+ "_" +:+ "ses-M06" +:+ "_"
        +:+ drop_two_fields (Pathlib.name (Pathlib.parse first)).
Proof.
  destruct (job Demo.world (Demo.args "two.tsv" default_gamma 2)
              [mkInRow "sub-ADNI001" "ses-M00" "single"; mkInRow "sub-OAS42" "ses-M06" "single"]
              {[ "single" := Demo.caps ]} "T1w.nii.gz" 1) as [t [e|df]] eqn:Hjob;
    [by vm_compute in Hjob|].
  destruct (saved_file_name Demo.world _ _ _ _ _
              (mkInRow "sub-OAS42" "ses-M06" "single") _ _ Hjob eq_refl eq_refl eq_refl)
    as (first & img & Hp & -> & _ & Hname).
  exists first, img. split; [done|]. split; [|exact Hname].
  pose proof (job_returns _ _ _ _ _ _ _ _ Hjob) as (r' & first' & img' & [= <-] & _ & _ & ->).
  done.
Defined.

(** ** A job that cannot name its outputs *)

(** X3. A job writes nothing before the row is read, the cohort is found
    in the CAPS dictionary, the lookup has returned a file and the
    participant has a second field; the first thing it writes is the
    directory of the row. *)
Theorem job_names_before_writing (W : World) (a : Args) data_df caps_dict file_type i t o :
  job W a data_df caps_dict file_type i = (t, o) →
  t ≠ [] →
  ∃ r caps found first subject_id t',
    data_df !! i = Some r ∧
    caps_dict !! cohort r = Some caps ∧
    clinica_file_reader W [participant_id r] [session_id r] caps file_type = inr found ∧
    fst found !! 0%nat = Some first ∧
    Str.split "-" (participant_id r) !! 1%nat = Some subject_id ∧
    t = EMkdir (image_dir a r) :: t'.
Proof.
  unfold job, create_contrast_image. intros H Hne.
  apply bind_lift_cases in H as [[-> _]|(r & Hr & H)]; [done|].
  apply bind_lift_cases in H as [[-> _]|(caps & Hcaps & H)]; [done|].
  apply bind_lift_cases in H as [[-> _]|(found & Hfound & H)]; [done|].
  apply bind_lift_cases in H as [[-> _]|(first & Hfirst & H)]; [done|].
  apply bind_lift_cases in H as [[-> _]|(subject_id & Hid & H)]; [done|].
  apply bind_emit_cases in H as [[-> _]|(t' & _ & ->)]; [done|].
  unfold loc in Hr. destruct (data_df !! i) as [r'|] eqn:Hrow; [|done].
  injection Hr as ->.
  unfold getitem in Hcaps. destruct (caps_dict !! cohort r) as [caps'|] eqn:Hc; [|done].
  injection Hcaps as ->.
  apply index_inr in Hfirst, Hid.
  exists r, caps, found, first, subject_id, t'. repeat split; try done.
  unfold image_dir, subject_id_of, field. by rewrite Hid.
Qed.

Lemma job_names_before_writing_witness :
  ∃ r caps found first subject_id t',
    [mkInRow "sub-ADNI001" "ses-M00" "single"] !! 0%nat = Some r ∧
    ({[ "single" := Demo.caps ]} : gmap string Path) !! cohort r = Some caps ∧
    clinica_file_reader Demo.world [participant_id r] [session_id r] caps "T1w.nii.gz"
    = inr found ∧
    fst found !! 0%nat = Some first ∧
    Str.split "-" (participant_id r) !! 1%nat = Some subject_id ∧
    [EMkdir (Image:=string)
       (Pathlib.parse "/data/out/subjects/sub-CONTADNI001/ses-M00/t1-linear")]
    = EMkdir (image_dir (Demo.args "two.tsv" [0.5%float] 2) r) :: t'.
Proof.
  apply (job_names_before_writing Demo.world (Demo.args "two.tsv" [0.5%float] 2)
           [mkInRow "sub-ADNI001" "ses-M00" "single"]
           {[ "single" := Demo.caps ]} "T1w.nii.gz" 0%nat _ (inl IndexError)).
  - vm_compute. reflexivity.
  - done.
Defined.

(** X4. A participant without a hyphen has no second field: the job of
    such a row raises and writes nothing, and what it raises is
    [IndexError] when the cohort is known and the lookup has found a
    file. *)
Theorem job_without_hyphen (W : World) (a : Args) data_df caps_dict file_type i r :
  data_df !! i = Some r →
  Str.count "-" (participant_id r) = 0%nat →
  ∃ e,
    job W a data_df caps_dict file_type i = ([], inl e) ∧
    (∀ caps found first,
       caps_dict !! cohort r = Some caps →
       clinica_file_reader W [participant_id r] [session_id r] caps file_type = inr found →
       fst found !! 0%nat = Some first →
       e = IndexError).
Proof.
  intros Hr Hcount. unfold job, create_contrast_image, loc, getitem.
  rewrite Hr, bind_lift_inr. cbv beta zeta.
  destruct (caps_dict !! cohort r) as [caps|] eqn:Hcaps.
  2:{ eexists. split; [reflexivity|]. intros ??? [=]. }
  rewrite bind_lift_inr.
  destruct (clinica_file_reader W [participant_id r] [session_id r] caps file_type)
    as [e|found] eqn:Hfound.
  { exists e. split; [reflexivity|]. intros ??? [= <-] ?. congruence. }
  rewrite bind_lift_inr. unfold index.
  destruct (fst found !! 0%nat) as [first|] eqn:Hfirst.
  2:{ exists IndexError. split; [reflexivity|done]. }
  rewrite bind_lift_inr, (split_no_separator _ _ Hcount). simpl.
  exists IndexError. split; [reflexivity|done].
Qed.

Lemma job_without_hyphen_witness :
  ∃ e,
    job Demo.world (Demo.args "broken.tsv" default_gamma 2)
      [mkInRow "sub-ADNI001" "ses-M00" "single"; mkInRow "ADNI002" "ses-M00" "single"]
      {[ "single" := Demo.caps ]} "T1w.nii.gz" 1 = ([], inl e) ∧
    (∀ caps found first,
       ({[ "single" := Demo.caps ]} : gmap string Path) !! "single" = Some caps →
       clinica_file_reader Demo.world ["ADNI002"] ["ses-M00"] caps "T1w.nii.gz" = inr found →
       fst found !! 0%nat = Some first →
       e = IndexError).
Proof.
  apply (job_without_hyphen Demo.world (Demo.args "broken.tsv" default_gamma 2)
           [mkInRow "sub-ADNI001" "ses-M00" "single"; mkInRow "ADNI002" "ses-M00" "single"]
           {[ "single" := Demo.caps ]} "T1w.nii.gz" 1%nat
           (mkInRow "ADNI002" "ses-M00" "single")); reflexivity.
Defined.

(** ** The range [gamma] *)

Lemma job_saves_nothing (W : World) (a : Args) data_df caps_dict file_type i output_df :
  (length (gamma a) < 2)%nat →
  all_events (fun ev => is_save ev = false)
    (create_contrast_image W a data_df caps_dict file_type i output_df).
Proof.
  intros Hshort. unfold create_contrast_image.
  apply all_events_bind; [apply all_events_lift|]. intros r ? _.
  apply all_events_bind; [apply all_events_lift|]. intros caps ? _.
  apply all_events_bind; [apply all_events_lift|]. intros found ? _.
  apply all_events_bind; [apply all_events_lift|]. intros first ? _.
  apply all_events_bind; [apply all_events_lift|]. intros subject_id ? _.
  apply all_events_bind; [by apply all_events_emit|]. intros [] ? _.
  apply all_events_bind; [apply all_events_lift|]. intros g0 ? _.
  apply all_events_bind; [apply all_events_lift|]. intros g1 ? [Hg1 _]%lift_inr.
  apply index_inr, lookup_lt_Some in Hg1. lia.
Qed.

(** X5. With fewer than two values in [gamma], [gamma[1]] does not exist:
    no job returns and no image is ever saved, whatever the manifest. A
    single [--gamma] on the command line is such a range. *)
Theorem short_gamma_saves_nothing (W : World) :
  (∀ a,
     (length (gamma a) < 2)%nat →
     Forall (fun ev => is_save ev = false) (trace (generate_contrast_dataset W a)) ∧
     ∀ data_df caps_dict file_type i,
       ∃ t e, job W a data_df caps_dict file_type i = (t, inl e)) ∧
  (∀ c v,
     cli_gamma c = [v] →
     Forall (fun ev => is_save ev = false) (trace (cli W c))).
Proof.
  assert (Hrun : ∀ a, (length (gamma a) < 2)%nat →
            Forall (fun ev => is_save ev = false) (trace (generate_contrast_dataset W a))).
  { intros a Hshort. rewrite run_trace. unfold generate_contrast_dataset_outputs.
    apply all_events_bind; [by apply all_events_emit|]. intros [] ? _.
    apply all_events_bind; [apply all_events_lift|]. intros caps_dict ? _.
    apply all_events_bind; [apply all_events_lift|]. intros data_df ? _.
    apply all_events_bind; [by apply all_events_emit|]. intros [] ? _.
    apply all_events_bind; [apply all_events_lift|]. intros file_type ? _.
    apply all_events_bind.
    { apply all_events_Parallel, Forall_forall.
      intros task (i & -> & _)%list_elem_of_fmap. by apply job_saves_nothing. }
    intros results ? _.
    apply all_events_bind; [by apply all_events_emit|]. intros [] ? _.
    apply all_events_bind; [by apply all_events_emit|]. intros [] ? _.
    apply all_events_ret. }
  split.
  - intros a Hshort. split; [by apply Hrun|].
    intros data_df caps_dict file_type i.
    destruct (job W a data_df caps_dict file_type i) as [t [e|df]] eqn:Hjob; [by eauto|].
    apply job_returns in Hjob as (r & first & img & _ & Hp & _).
    destruct Hp as (? & ? & g0 & g1 & ? & _ & _ & _ & _ & _ & Hg1 & _).
    apply lookup_lt_Some in Hg1. lia.
  - intros c v Hc. unfold cli, gamma_option. rewrite Hc. cbn [convert_floats].
    destruct (python_float W v) as [f|]; [|by constructor].
    rewrite bind_lift_inr. apply Hrun. simpl. lia.
Qed.

Lemma short_gamma_saves_nothing_witness :
  Forall (fun ev => is_save ev = false)
    (trace (cli Demo.world (Demo.cli_args "two.tsv" ["0.5"]))) ∧
  outcome (cli Demo.world (Demo.cli_args "two.tsv" ["0.5"])) = inl IndexError.
Proof.
  split; [|reflexivity].
  apply (proj2 (short_gamma_saves_nothing Demo.world) _ "0.5"). reflexivity.
Defined.

Lemma bind_ext {W : World} {A B} (m m' : M W A) (k k' : A → M W B) :
  m = m' → (∀ x, k x = k' x) → m ≫= k = m' ≫= k'.
Proof.
  intros <- H. unfold mbind, M_bind, bind. destruct m as [t [e|x]]; [done|].
  by rewrite H.
Qed.

Lemma index_take {B} (l : list B) i n : (i < n)%nat → index (take n l) i = index l i.
Proof. intros H. unfold index. by rewrite lookup_take_lt. Qed.

Lemma job_reads_two_values (W : World) (a : Args) g data_df caps_dict file_type i output_df :
  create_contrast_image W (with_gamma a g) data_df caps_dict file_type i output_df
  = create_contrast_image W (with_gamma a (take 2 g)) data_df caps_dict file_type i output_df.
Proof.
  unfold create_contrast_image.
  apply bind_ext; [done|]. intros r.
  apply bind_ext; [done|]. intros caps.
  apply bind_ext; [done|]. intros found.
  apply bind_ext; [done|]. intros first.
  apply bind_ext; [done|]. intros subject_id.
  apply bind_ext; [done|]. intros [].
  apply bind_ext; [simpl; by rewrite index_take by lia|]. intros g0.
  apply bind_ext; [simpl; by rewrite index_take by lia|]. intros g1.
  done.
Qed.

(** X6. Of the range [gamma] only the first two values are read: two calls
    that differ in the values after the second do the same. *)
Theorem gamma_beyond_two_is_ignored (W : World) (a : Args) g g' :
  take 2 g = take 2 g' →
  generate_contrast_dataset W (with_gamma a g)
  = generate_contrast_dataset W (with_gamma a g').
Proof.
  intros Htake.
  enough (Hcut : ∀ h,
    generate_contrast_dataset W (with_gamma a h)
    = generate_contrast_dataset W (with_gamma a (take 2 h))).
  { by rewrite (Hcut g), (Hcut g'), Htake. }
  intros h. unfold generate_contrast_dataset.
  apply bind_ext; [|done]. unfold generate_contrast_dataset_outputs.
  apply bind_ext; [done|]. intros [].
  apply bind_ext; [done|]. intros caps_dict.
  apply bind_ext; [done|]. intros data_df.
  apply bind_ext; [done|]. intros [].
  apply bind_ext; [done|]. intros file_type.
  apply bind_ext; [|done]. f_equal.
  apply map_ext. intros i. apply job_reads_two_values.
Qed.

Lemma gamma_beyond_two_is_ignored_witness :
  generate_contrast_dataset Demo.world
    (with_gamma (Demo.args "two.tsv" default_gamma 2) [5%float; 7%float; 9%float])
  = generate_contrast_dataset Demo.world
      (with_gamma (Demo.args "two.tsv" default_gamma 2) [5%float; 7%float]).
Proof. apply gamma_beyond_two_is_ignored. reflexivity. Defined.

(** ** Before the jobs *)

(** X7. The [subjects] directory is made once the manifest is read and
    before the preprocessing is looked up: when the CAPS dictionary or the
    manifest cannot be made, the call raises what they raise and no
    directory has been made; when the preprocessing is refused, the call
    raises what [find_file_type] raises and leaves the [subjects] directory
    behind, empty. *)
Theorem failures_before_the_jobs (W : World) (a : Args) :
  fs_ok W (EJson (invocation_record a)) = inr tt →
  (∀ e,
     create_caps_dict W (caps_directory a) (multi_cohort a) = inl e →
     generate_contrast_dataset W a = ([EJson (invocation_record a)], inl e)) ∧
  (∀ caps_dict e,
     create_caps_dict W (caps_directory a) (multi_cohort a) = inr caps_dict →
     load_and_check_tsv W (tsv_path a) caps_dict (output_dir a) = inl e →
     generate_contrast_dataset W a = ([EJson (invocation_record a)], inl e)) ∧
  (∀ caps_dict data_df e,
     create_caps_dict W (caps_directory a) (multi_cohort a) = inr caps_dict →
     load_and_check_tsv W (tsv_path a) caps_dict (output_dir a) = inr data_df →
     fs_ok W (EMkdir (output_dir a </> "subjects")) = inr tt →
     find_file_type W (preprocessing a) (uncropped_image a) (tracer a)
       (suvr_reference_region a) = inl e →
     generate_contrast_dataset W a
     = ([EJson (invocation_record a); EMkdir (output_dir a </> "subjects")], inl e)).
Proof.
  intros Hjson. repeat split.
  - intros e Hcaps. apply run_failure. unfold generate_contrast_dataset_outputs.
    eapply (bind_ok _ _ [_] tt []); [exact (emit_ok _ _ Hjson)|].
    rewrite Hcaps. reflexivity.
  - intros caps_dict e Hcaps Hdata. apply run_failure.
    unfold generate_contrast_dataset_outputs.
    eapply (bind_ok _ _ [_] tt []); [exact (emit_ok _ _ Hjson)|].
    rewrite Hcaps, bind_lift_inr, Hdata. reflexivity.
  - intros caps_dict data_df e Hcaps Hdata Hmk Hft. apply run_failure.
    unfold generate_contrast_dataset_outputs.
    eapply (bind_ok _ _ [_] tt [_]); [exact (emit_ok _ _ Hjson)|].
    rewrite Hcaps, bind_lift_inr, Hdata, bind_lift_inr.
    eapply (bind_ok _ _ [_] tt []); [exact (emit_ok _ _ Hmk)|].
    rewrite Hft. reflexivity.
Qed.

Lemma failures_before_the_jobs_witness :
  generate_contrast_dataset Demo.world (Demo.args "nowhere.tsv" default_gamma 2)
  = ([EJson (invocation_record (Demo.args "nowhere.tsv" default_gamma 2))],
     inl (LibraryError "clinicadl" "ClinicaDLTSVError")) ∧
  generate_contrast_dataset Demo.world
    (with_preprocessing (Demo.args "two.tsv" default_gamma 2) "t1-extensive")
  = ([EJson (invocation_record
               (with_preprocessing (Demo.args "two.tsv" default_gamma 2) "t1-extensive"));
      EMkdir (Demo.out </> "subjects")],
     inl (LibraryError "clinicadl" "NotImplementedError")).
Proof.
  split.
  - apply (proj1 (proj2 (failures_before_the_jobs Demo.world
                           (Demo.args "nowhere.tsv" default_gamma 2) eq_refl))
             {[ "single" := Demo.caps ]}); reflexivity.
  - apply (proj2 (proj2 (failures_before_the_jobs Demo.world
                           (with_preprocessing (Demo.args "two.tsv" default_gamma 2)
                              "t1-extensive") eq_refl))
             {[ "single" := Demo.caps ]}
             [mkInRow "sub-ADNI001" "ses-M00" "single";
              mkInRow "sub-OAS42" "ses-M06" "single"]); reflexivity.
Defined.

Lemma bind_emit_split {W : World} {B} ev (k : unit → M W B) t r :
  emit W ev ≫= k = (t, r) →
  (∃ e, fs_ok W ev = inl e ∧ t = [] ∧ r = inl e) ∨
  (fs_ok W ev = inr tt ∧ ∃ t2, k tt = (t2, r) ∧ t = ev :: t2).
Proof.
  unfold emit, mbind, M_bind, bind. destruct (fs_ok W ev) as [e|[]].
  - intros [= <- <-]. left. by exists e.
  - destruct (k tt) as [t2 r2] eqn:Hk. intros [= <- <-]. right. split; [done|]. by exists t2.
Qed.

Lemma bind_lift_split {W : World} {A B} (x : Exc A) (k : A → M W B) t r :
  lift x ≫= k = (t, r) →
  (∃ e, x = inl e ∧ t = [] ∧ r = inl e) ∨ (∃ v, x = inr v ∧ k v = (t, r)).
Proof.
  unfold lift, mbind, M_bind, bind. destruct x as [e|v].
  - intros [= <- <-]. left. by exists e.
  - destruct (k v) as [t2 r2] eqn:Hk. intros [= <- <-]. right. by exists v.
Qed.

(** X8. Without workers nothing is processed: with [n_proc = 0] the call
    always raises, and it has written at most the record of its parameters
    and the [subjects] directory, whatever the manifest holds; when
    everything before the jobs goes through, what it raises is the
    [ValueError] of joblib. *)
Theorem zero_workers (W : World) (a : Args) :
  n_proc a = 0 →
  (∃ e, outcome (generate_contrast_dataset W a) = inl e) ∧
  trace (generate_contrast_dataset W a)
    `prefix_of` [EJson (invocation_record a); EMkdir (output_dir a </> "subjects")] ∧
  (fs_ok W (EJson (invocation_record a)) = inr tt →
   fs_ok W (EMkdir (output_dir a </> "subjects")) = inr tt →
   ∀ caps_dict data_df file_type,
     create_caps_dict W (caps_directory a) (multi_cohort a) = inr caps_dict →
     load_and_check_tsv W (tsv_path a) caps_dict (output_dir a) = inr data_df →
     find_file_type W (preprocessing a) (uncropped_image a) (tracer a)
       (suvr_reference_region a) = inr file_type →
     outcome (generate_contrast_dataset W a)
     = inl (ValueError "n_jobs == 0 in Parallel has no meaning")).
Proof.
  intros Hn.
  assert (Hshape : ∃ e t,
    generate_contrast_dataset_outputs W a = (t, inl e) ∧
    t `prefix_of` [EJson (invocation_record a); EMkdir (output_dir a </> "subjects")] ∧
    (fs_ok W (EJson (invocation_record a)) = inr tt →
     fs_ok W (EMkdir (output_dir a </> "subjects")) = inr tt →
     ∀ caps_dict data_df file_type,
       create_caps_dict W (caps_directory a) (multi_cohort a) = inr caps_dict →
       load_and_check_tsv W (tsv_path a) caps_dict (output_dir a) = inr data_df →
       find_file_type W (preprocessing a) (uncropped_image a) (tracer a)
         (suvr_reference_region a) = inr file_type →
       e = ValueError "n_jobs == 0 in Parallel has no meaning")).
  { destruct (generate_contrast_dataset_outputs W a) as [t r] eqn:Hrun.
    unfold generate_contrast_dataset_outputs in Hrun.
    apply bind_emit_split in Hrun as [(e & Hj & -> & ->)|(Hj & t1 & Hrun & ->)].
    { exists e, []. split; [done|]. split; [apply prefix_nil|].
      intros Hj'. unfold invocation_record in Hj'. congruence. }
    apply bind_lift_split in Hrun as [(e & Hc & -> & ->)|(caps_dict & Hcaps & Hrun)].
    { exists e, [EJson (invocation_record a)]. split; [done|].
      split; [by exists [EMkdir (output_dir a </> "subjects")]|].
      intros _ _ ??? Hc'. congruence. }
    apply bind_lift_split in Hrun as [(e & Hd & -> & ->)|(data_df & Hdata & Hrun)].
    { exists e, [EJson (invocation_record a)]. split; [done|].
      split; [by exists [EMkdir (output_dir a </> "subjects")]|].
      intros _ _ cd dd ? Hc' Hd'. rewrite Hcaps in Hc'. injection Hc' as <-. congruence. }
    apply bind_emit_split in Hrun as [(e & Hm & -> & ->)|(Hm & t2 & Hrun & ->)].
    { exists e, [EJson (invocation_record a)]. split; [done|].
      split; [by exists [EMkdir (output_dir a </> "subjects")]|].
      intros _ Hm'. congruence. }
    apply bind_lift_split in Hrun as [(e & Hf & -> & ->)|(file_type & Hft & Hrun)].
    { exists e, [EJson (invocation_record a); EMkdir (output_dir a </> "subjects")].
      split; [done|]. split; [done|]. intros _ _ ??? _ _ Hf'. congruence. }
    unfold Parallel in Hrun. rewrite Hn in Hrun. simpl in Hrun. injection Hrun as <- <-.
    eexists _, _. split; [done|]. split; [done|]. done. }
  destruct Hshape as (e & t & Hrun & Hprefix & He).
  rewrite (run_failure W a _ _ Hrun). split; [by exists e|]. split; [done|].
  intros Hj Hm ??? Hc Hd Hf. simpl. f_equal. eauto.
Qed.

Lemma zero_workers_witness :
  generate_contrast_dataset Demo.world (Demo.args "two.tsv" default_gamma 0)
  = ([EJson (invocation_record (Demo.args "two.tsv" default_gamma 0));
      EMkdir (Demo.out </> "subjects")],
     inl (ValueError "n_jobs == 0 in Parallel has no meaning")).
Proof.
  destruct (zero_workers Demo.world (Demo.args "two.tsv" default_gamma 0) eq_refl)
    as (_ & _ & He).
  specialize (He eq_refl eq_refl _ _ _ eq_refl eq_refl eq_refl).
  destruct (generate_contrast_dataset Demo.world (Demo.args "two.tsv" default_gamma 0))
    as [t r] eqn:Hrun.
  simpl in He. subst r. f_equal.
  by vm_compute in Hrun; injection Hrun as <-.
Defined.

(** ** What a run that goes through has written *)

(** X9. The loop of lines 129-131 starts from [pd.DataFrame()], which has
    no columns: with an empty manifest the frame written to [data.tsv] is
    that frame, without the columns [participant_id], [session_id] and
    [diagnosis], and nothing else is written than the record, the
    [subjects] directory, [data.tsv] and the report; with at least one row
    the frame has exactly these three columns. *)
Theorem manifest_header (W : World) (a : Args) tr df :
  generate_contrast_dataset_outputs W a = (tr, inr df) →
  ∃ caps_dict data_df,
    create_caps_dict W (caps_directory a) (multi_cohort a) = inr caps_dict ∧
    load_and_check_tsv W (tsv_path a) caps_dict (output_dir a) = inr data_df ∧
    (data_df = [] →
     df = Pandas.empty ∧ df_columns df = [] ∧
     tr = [EJson (invocation_record a); EMkdir (output_dir a </> "subjects");
           EToCsv (output_dir a </> "data.tsv") tab Pandas.empty;
           EMissingMods (output_dir a) Pandas.empty]) ∧
    (data_df ≠ [] →
     df_columns df = ["participant_id"; "session_id"; "diagnosis"] ∧
     Forall (fun row => length row = 3%nat) (df_rows df)).
Proof.
  intros H.
  apply outputs_returns in H
    as (caps_dict & data_df & ft & ts & Hcaps & Hdata & _ & _ & Hlen & _ & -> & ->).
  exists caps_dict, data_df. split; [done|]. split; [done|]. split.
  - intros ->. destruct ts; [|done]. done.
  - intros Hne. unfold manifest_of. destruct data_df as [|r rs]; [done|].
    split; [done|]. cbn [df_rows Pandas.of_rows].
    rewrite rev_reverse. apply Forall_reverse, Forall_forall.
    by intros row (r' & -> & _)%list_elem_of_fmap.
Qed.

Lemma manifest_header_witness :
  generate_contrast_dataset_outputs Demo.world (Demo.args "empty.tsv" default_gamma 2)
  = ([EJson (invocation_record (Demo.args "empty.tsv" default_gamma 2));
      EMkdir (Demo.out </> "subjects");
      EToCsv (Demo.out </> "data.tsv") tab Pandas.empty;
      EMissingMods Demo.out Pandas.empty],
     inr Pandas.empty).
Proof.
  destruct (generate_contrast_dataset_outputs Demo.world
              (Demo.args "empty.tsv" default_gamma 2)) as [tr [e|df]] eqn:H;
    [by vm_compute in H|].
  destruct (manifest_header _ _ _ _ H) as (cd & dd & Hcd & Hdd & Hempty & _).
  injection Hdd as <-. by destruct (Hempty eq_refl) as (-> & _ & ->).
Defined.

Lemma count_events_concat {B} (f : B → bool) (ls : list (list B)) :
  Forall (fun l => length (List.filter f l) = 1%nat) ls →
  length (List.filter f (List.concat ls)) = length ls.
Proof.
  induction 1 as [|l ls Hl _ IH]; simpl; [done|].
  by rewrite List.filter_app, length_app, Hl, IH.
Qed.

Lemma length_concat_pairs {B} (ls : list (list B)) :
  Forall (fun l => length l = 2%nat) ls → length (List.concat ls) = (2 * length ls)%nat.
Proof.
  induction 1 as [|l ls Hl _ IH]; simpl; [done|]. rewrite length_app, Hl, IH. lia.
Qed.

(** X10. A run that goes through saves one image and makes one directory for
    every row of the manifest, and the [subjects] directory besides: no row
    is skipped and none is processed twice. *)
Theorem one_image_per_row (W : World) (a : Args) tr df caps_dict data_df :
  generate_contrast_dataset_outputs W a = (tr, inr df) →
  create_caps_dict W (caps_directory a) (multi_cohort a) = inr caps_dict →
  load_and_check_tsv W (tsv_path a) caps_dict (output_dir a) = inr data_df →
  length (List.filter is_save (trace (generate_contrast_dataset W a))) = length data_df ∧
  length (List.filter is_mkdir (trace (generate_contrast_dataset W a)))
  = S (length data_df) ∧
  length (trace (generate_contrast_dataset W a)) = (2 * length data_df + 4)%nat.
Proof.
  intros H Hcaps Hdata. rewrite (run_after_outputs W a _ _ H).
  apply outputs_returns in H
    as (caps_dict' & data_df' & ft & ts & Hcaps' & Hdata' & _ & _ & Hlen & Hrows & _ & ->).
  rewrite Hcaps in Hcaps'. injection Hcaps' as <-.
  rewrite Hdata in Hdata'. injection Hdata' as <-.
  assert (Hjobs : Forall (fun t : list (Event (Image W)) =>
                     length (List.filter is_save t) = 1%nat ∧
                     length (List.filter is_mkdir t) = 1%nat ∧
                     length t = 2%nat)
                    (shuffle (schedule W (n_proc a) (length data_df)) ts)).
  { rewrite shuffle_Permutation. apply Forall_lookup. intros i t Hi.
    destruct (lookup_lt_is_Some_2 data_df i) as [r Hr].
    { apply lookup_lt_Some in Hi. lia. }
    destruct (Hrows i r Hr) as (first & img & _ & Hti).
    rewrite Hi in Hti. by injection Hti as ->. }
  pose proof (Permutation_length (shuffle_Permutation
                (schedule W (n_proc a) (length data_df)) ts)) as Hshuffle.
  unfold trace; cbn [fst].
  rewrite !List.filter_app, !length_app.
  rewrite (count_events_concat is_save), (count_events_concat is_mkdir);
    [|eapply Forall_impl; [exact Hjobs|]; by intros ? (_ & ? & _)
     |eapply Forall_impl; [exact Hjobs|]; by intros ? (? & _)].
  split; [simpl; lia|]. split; [simpl; lia|].
  rewrite (length_concat_pairs _ (Forall_impl _ _ _ Hjobs (fun _ H => proj2 (proj2 H)))).
  rewrite Hshuffle, Hlen. simpl. lia.
Qed.

Lemma one_image_per_row_witness :
  length (List.filter is_save
            (trace (generate_contrast_dataset Demo.world
                      (Demo.args "three.tsv" default_gamma 2)))) = 3%nat ∧
  length (List.filter is_mkdir
            (trace (generate_contrast_dataset Demo.world
                      (Demo.args "three.tsv" default_gamma 2)))) = 4%nat ∧
  length (trace (generate_contrast_dataset Demo.world
                   (Demo.args "three.tsv" default_gamma 2))) = 10%nat.
Proof.
  destruct (generate_contrast_dataset_outputs Demo.world
              (Demo.args "three.tsv" default_gamma 2)) as [tr [e|df]] eqn:H;
    [by vm_compute in H|].
  exact (one_image_per_row Demo.world _ tr df
           {[ "single" := Demo.caps ]}
           [mkInRow "sub-A" "ses-M00" "single";
            mkInRow "sub-B" "ses-M00" "single";
            mkInRow "sub-C" "ses-M00" "single"]
           H eq_refl eq_refl).
Defined.

(** ** A job that raises *)

(** X11. A job that raises has saved no image: it has written nothing, or
    it has made the directory of its row and left it without the image. The
    job of a row whose cohort is not a key of the CAPS dictionary is of the
    first kind, and what it raises is the [KeyError] of [caps_dict[cohort]]. *)
Theorem failed_job_saves_no_image (W : World) (a : Args) data_df caps_dict file_type i :
  (∀ t e,
     job W a data_df caps_dict file_type i = (t, inl e) →
     t = [] ∨ ∃ r, data_df !! i = Some r ∧ t = [EMkdir (image_dir a r)]) ∧
  (∀ r,
     data_df !! i = Some r →
     caps_dict !! cohort r = None →
     job W a data_df caps_dict file_type i = ([], inl (KeyError (cohort r)))).
Proof.
  split.
  - intros t e H. unfold job, create_contrast_image in H.
    apply bind_lift_split in H as [(? & _ & -> & _)|(r & Hr & H)]; [by left|].
    apply bind_lift_split in H as [(? & _ & -> & _)|(caps & _ & H)]; [by left|].
    apply bind_lift_split in H as [(? & _ & -> & _)|(found & _ & H)]; [by left|].
    apply bind_lift_split in H as [(? & _ & -> & _)|(first & _ & H)]; [by left|].
    apply bind_lift_split in H as [(? & _ & -> & _)|(subject_id & Hid & H)]; [by left|].
    apply bind_emit_split in H as [(? & _ & -> & _)|(_ & t2 & H & ->)]; [by left|].
    right. exists r. split.
    { unfold loc in Hr. destruct (data_df !! i); [|done]. by injection Hr as ->. }
    apply index_inr in Hid.
    replace (image_dir a r)
      with (output_dir a </> "subjects" </> ("sub-CONT" +:+ subject_id)
              </> session_id r </> preprocessing a)
      by (unfold image_dir, subject_id_of, field; by rewrite Hid).
    f_equal.
    apply bind_lift_split in H as [(? & _ & -> & _)|(g0 & _ & H)]; [done|].
    apply bind_lift_split in H as [(? & _ & -> & _)|(g1 & _ & H)]; [done|].
    apply bind_lift_split in H as [(? & _ & -> & _)|(contrast & _ & H)]; [done|].
    apply bind_lift_split in H as [(? & _ & -> & _)|(img & _ & H)]; [done|].
    apply bind_emit_split in H as [(? & _ & -> & _)|(_ & t3 & H & ->)]; [done|].
    by injection H.
  - intros r Hr Hcohort. unfold job, create_contrast_image, loc, getitem.
    rewrite Hr, bind_lift_inr. cbv beta zeta. by rewrite Hcohort.
Qed.

Lemma failed_job_saves_no_image_witness :
  job Demo.world (Demo.args "two.tsv" default_gamma 2)
    [mkInRow "sub-ADNI001" "ses-M00" "adni"] {[ "single" := Demo.caps ]} "T1w.nii.gz" 0
  = ([], inl (KeyError "adni")) ∧
  ∃ r,
    [mkInRow "sub-ADNI001" "ses-M00" "single"] !! 0%nat = Some r ∧
    job Demo.world (Demo.args "two.tsv" [7%float; 5%float] 2)
      [mkInRow "sub-ADNI001" "ses-M00" "single"] {[ "single" := Demo.caps ]} "T1w.nii.gz" 0
    = ([EMkdir (image_dir (Demo.args "two.tsv" [7%float; 5%float] 2) r)],
       inl (ValueError "the second value must be equal or greater than the first")).
Proof.
  split.
  - apply (proj2 (failed_job_saves_no_image Demo.world (Demo.args "two.tsv" default_gamma 2)
                    [mkInRow "sub-ADNI001" "ses-M00" "adni"] {[ "single" := Demo.caps ]}
                    "T1w.nii.gz" 0%nat) (mkInRow "sub-ADNI001" "ses-M00" "adni"));
      reflexivity.
  - destruct (job Demo.world (Demo.args "two.tsv" [7%float; 5%float] 2)
                [mkInRow "sub-ADNI001" "ses-M00" "single"] {[ "single" := Demo.caps ]}
                "T1w.nii.gz" 0) as [t [e|df]] eqn:Hjob; [|by vm_compute in Hjob].
    assert (He : outcome (job Demo.world (Demo.args "two.tsv" [7%float; 5%float] 2)
                            [mkInRow "sub-ADNI001" "ses-M00" "single"]
                            {[ "single" := Demo.caps ]} "T1w.nii.gz" 0)
                 = inl (ValueError "the second value must be equal or greater than the first"))
      by (vm_compute; reflexivity).
    rewrite Hjob in He. simpl in He. injection He as ->.
    destruct (proj1 (failed_job_saves_no_image _ _ _ _ _ _) t _ Hjob)
      as [->|(r & Hr & ->)]; [by vm_compute in Hjob|].
    by exists r.
Defined.

(** ** Workers and what is written *)




(** ** The end of the call *)

(** X13. The call never returns. The module binds no name [logger], so the
    last statement raises [NameError] once everything is written, and what
    raises before it is not caught; the same holds for the command, which
    does nothing after the call. *)
Theorem call_never_returns (W : World) :
  (∀ a,
     (∃ e, outcome (generate_contrast_dataset W a) = inl e) ∧
     ∀ tr df,
       generate_contrast_dataset_outputs W a = (tr, inr df) →
       generate_contrast_dataset W a = (tr, inl (NameError "logger"))) ∧
  (∀ c, ∃ e, outcome (cli W c) = inl e).
Proof.
  assert (Hrun : ∀ a, ∃ e, outcome (generate_contrast_dataset W a) = inl e).
  { intros a. destruct (generate_contrast_dataset_outputs W a) as [tr [e|df]] eqn:H.
    - exists e. by rewrite (run_failure W a _ _ H).
    - exists (NameError "logger"). by rewrite (run_after_outputs W a _ _ H). }
  split.
  - intros a. split; [apply Hrun|]. apply run_after_outputs.
  - intros c. unfold cli. destruct (gamma_option W (cli_gamma c)) as [e|g]; [by exists e|].
    rewrite bind_lift_inr. apply Hrun.
Qed.

Lemma call_never_returns_witness :
  outcome (generate_contrast_dataset Demo.world (Demo.args "two.tsv" default_gamma 2))
  = inl (NameError "logger").
Proof.
  destruct (generate_contrast_dataset_outputs Demo.world
              (Demo.args "two.tsv" default_gamma 2)) as [tr [e|df]] eqn:H;
    [by vm_compute in H|].
  by rewrite (proj2 (proj1 (call_never_returns Demo.world) _) tr df H).
Defined.
